(** * questions.py: prompt builders and the rotating target URL

    A shallow embedding of [questions.py].  The module computes, when it is
    imported, a target URL from the environment variable
    [GITHUB_RUN_NUMBER], holds the list [scope_files], and defines four
    functions that each fill one f-string template.

    Python values are modelled as follows: [int] is [Z], [str] is [string]
    (the bytes of the UTF-8 text), a list of [str] is [list string], a raised
    exception is the [Raised] constructor of [outcome]. *)

From Stdlib Require Import ZArith NArith String Ascii List Bool Lia DecimalString.
Import ListNotations.

Local Open Scope string_scope.
Local Open Scope Z_scope.

(** ** The Python builtins that the module calls *)

Module Py.

(** Exception classes that the modelled builtins can raise. *)
Inductive py_exception : Type :=
| ValueError
| ZeroDivisionError
| TypeError
| NameError.

Definition exception_name (e : py_exception) : string :=
  match e with
  | ValueError => "ValueError"
  | ZeroDivisionError => "ZeroDivisionError"
  | TypeError => "TypeError"
  | NameError => "NameError"
  end.

(** Result of evaluating an expression or a call: a value, or an
    exception that nothing in [questions.py] catches. *)
Inductive outcome (A : Type) : Type :=
| Returned (a : A)
| Raised (e : py_exception).
Arguments Returned {A} a.
Arguments Raised {A} e.

Definition bind {A B : Type} (m : outcome A) (k : A -> outcome B) : outcome B :=
  match m with
  | Returned a => k a
  | Raised e => Raised e
  end.

(** The values that occur in the module. *)
Inductive py_value : Type :=
| PyInt (z : Z)
| PyStr (s : string)
| PyStrList (l : list string).

Definition dquote : ascii := ascii_of_nat 34.
Definition squote : ascii := ascii_of_nat 39.
Definition backslash : ascii := ascii_of_nat 92.
Definition underscore : ascii := ascii_of_nat 95.
Definition newline : ascii := ascii_of_nat 10.

Definition str1 (c : ascii) : string := String c EmptyString.

(** *** [int(str)]

    CPython's [PyLong_FromString] in base 10, for a [str] made of ASCII
    characters: leading whitespace, one optional sign, decimal digits
    with single underscores between digits, trailing whitespace.  A
    non-ASCII [str] is rejected by this model, where CPython would first
    map Unicode spaces and decimal digits to ASCII; [is_ascii_str] marks
    the strings on which a rejection by the model is CPython's. *)

Definition is_ascii_str (s : string) : bool :=
  forallb (fun c => (nat_of_ascii c <? 128)%nat) (list_ascii_of_string s).

(** [Py_ISSPACE]: tab, line feed, vertical tab, form feed, carriage
    return, space. *)
Definition is_space (c : ascii) : bool :=
  let n := nat_of_ascii c in
  (((9 <=? n) && (n <=? 13)) || (n =? 32))%nat.

Definition digit_value (c : ascii) : option Z :=
  let n := nat_of_ascii c in
  if ((48 <=? n) && (n <=? 57))%nat then Some (Z.of_nat (n - 48)) else None.

Fixpoint skip_spaces (s : string) : string :=
  match s with
  | String c r => if is_space c then skip_spaces r else s
  | EmptyString => s
  end.

Inductive prev_char : Type := PrevNone | PrevDigit | PrevUnderscore.

(** The digit scan: returns the value read, the number of digits and the
    rest of the text; fails on a doubled or trailing underscore. *)
Fixpoint scan_digits (s : string) (prev : prev_char) (acc : Z) (ndigits : N)
  : option (Z * N * string) :=
  let stop := match prev with
              | PrevUnderscore => None
              | _ => Some (acc, ndigits, s)
              end in
  match s with
  | EmptyString => stop
  | String c r =>
      if Ascii.eqb c underscore then
        match prev with
        | PrevUnderscore => None
        | _ => scan_digits r PrevUnderscore acc ndigits
        end
      else
        match digit_value c with
        | Some d => scan_digits r PrevDigit (10 * acc + d) (ndigits + 1)
        | None => stop
        end
  end.

Definition split_sign (s : string) : bool * string :=
  match s with
  | String c r =>
      if Ascii.eqb c "+"%char then (false, r)
      else if Ascii.eqb c "-"%char then (true, r)
      else (false, s)
  | EmptyString => (false, s)
  end.

Definition starts_with_underscore (s : string) : bool :=
  match s with
  | String c _ => Ascii.eqb c underscore
  | EmptyString => false
  end.

(** Texts of more than 640 digits are checked against the interpreter's
    limit on integer string conversion, [max_str_digits]; 0 switches the
    check off. *)
Definition exceeds_digit_limit (max_str_digits ndigits : N) : bool :=
  ((640 <? ndigits) && (0 <? max_str_digits) && (max_str_digits <? ndigits))%N.

Definition int_of_str (max_str_digits : N) (s : string) : outcome Z :=
  let (negative, body) := split_sign (skip_spaces s) in
  if starts_with_underscore body then Raised ValueError
  else
    match scan_digits body PrevNone 0 0 with
    | None => Raised ValueError
    | Some (v, ndigits, rest) =>
        if (ndigits =? 0)%N then Raised ValueError
        else if exceeds_digit_limit max_str_digits ndigits then Raised ValueError
        else
          match skip_spaces rest with
          | EmptyString => Returned (if negative then - v else v)
          | String _ _ => Raised ValueError
          end
    end.

(** [int(x)] on the values of the module. *)
Definition int (max_str_digits : N) (x : py_value) : outcome Z :=
  match x with
  | PyInt z => Returned z
  | PyStr s => int_of_str max_str_digits s
  | PyStrList _ => Raised TypeError
  end.

(** [a % b] on [int]: the remainder has the sign of [b]. *)
Definition mod_ (a b : Z) : outcome Z :=
  if b =? 0 then Raised ZeroDivisionError else Returned (a mod b).

(** *** [format(z, "03d")] *)

Definition decimal (n : N) : string := NilEmpty.string_of_uint (N.to_uint n).

Fixpoint zeros (n : nat) : string :=
  match n with
  | O => EmptyString
  | S k => String "0"%char (zeros k)
  end.

Definition zfill (width : nat) (s : string) : string :=
  zeros (width - String.length s) ++ s.

Definition format_03d (z : Z) : string :=
  if z <? 0 then "-" ++ zfill 2 (decimal (Z.abs_N z))
  else zfill 3 (decimal (Z.to_N z)).

End Py.
Import Py.

Notation "x <- m ;; k" := (bind m (fun x => k))
  (at level 61, m at next level, right associativity).

(** ** The module-level code *)

Definition MAX_REPO : Z := 30.
Definition SOURCE_REPO : string := "AElfProject/AElf".
Definition REPO_NAME : string := "aelf".

(** [os.environ.get(key, default)] *)
Fixpoint environ_get (environ : list (string * string)) (key default : string) : string :=
  match environ with
  | [] => default
  | (k, v) :: rest => if String.eqb k key then v else environ_get rest key default
  end.

Definition run_number (environ : list (string * string)) : string :=
  environ_get environ "GITHUB_RUN_NUMBER" "0".

Section TargetSelector.

(** The interpreter's limit on integer string conversion. *)
Variable max_str_digits : N.

Definition get_cyclic_index (run_number : py_value) (max_index : Z) : outcome Z :=
  n <- int max_str_digits run_number ;;
  r <- mod_ (n - 1) max_index ;;
  Returned (r + 1).

(** The default of the parameter [max_index]. *)
Definition get_cyclic_index_default (run_number : py_value) : outcome Z :=
  get_cyclic_index run_number 100.

(** The [if]/[else] that binds [BASE_URL], as a function of the run
    counter. *)
Definition BASE_URL (run_number : string) : outcome string :=
  if String.eqb run_number "0" then
    Returned ("https://deepwiki.com/" ++ SOURCE_REPO)
  else
    run_index <- get_cyclic_index (PyStr run_number) MAX_REPO ;;
    let repo_number := format_03d run_index in
    Returned ("https://deepwiki.com/grass-dev-pa/" ++ REPO_NAME ++ "-" ++ repo_number).

End TargetSelector.

(** ** [str], [repr] and f-strings *)

Definition hex_digit (n : nat) : ascii :=
  match get n "0123456789abcdef" with
  | Some c => c
  | None => "0"%char
  end.

(** [repr] of a [str] picks double quotes only when the text has a single
    quote and no double quote.  Bytes from 128 on are copied, which is
    what CPython does with printable characters; the paths of
    [scope_files], the only texts that the module passes to [repr], are
    ASCII. *)
Definition repr_char (quote c : ascii) : string :=
  let n := nat_of_ascii c in
  if Ascii.eqb c backslash then String backslash (str1 backslash)
  else if Ascii.eqb c quote then String backslash (str1 quote)
  else if (n =? 9)%nat then "\t"
  else if (n =? 10)%nat then "\n"
  else if (n =? 13)%nat then "\r"
  else if ((n <? 32) || (n =? 127))%nat then
    "\x" ++ String (hex_digit (n / 16)) (str1 (hex_digit (n mod 16)))
  else str1 c.

Fixpoint repr_body (quote : ascii) (s : string) : string :=
  match s with
  | EmptyString => EmptyString
  | String c r => repr_char quote c ++ repr_body quote r
  end.

Definition has_char (c : ascii) (s : string) : bool :=
  existsb (Ascii.eqb c) (list_ascii_of_string s).

Definition repr_str (s : string) : string :=
  let quote := if has_char squote s && negb (has_char dquote s)
               then dquote else squote in
  String quote (repr_body quote s ++ str1 quote).

(** [", ".join(items)] *)
Fixpoint join (sep : string) (items : list string) : string :=
  match items with
  | [] => EmptyString
  | [x] => x
  | x :: rest => x ++ sep ++ join sep rest
  end.

Definition repr_list (l : list string) : string :=
  "[" ++ join ", " (map repr_str l) ++ "]".

Definition str_of_int (z : Z) : string :=
  if z <? 0 then "-" ++ decimal (Z.abs_N z) else decimal (Z.to_N z).

(** [str(v)], which is also [format(v, "")], the conversion of an f-string
    field without format specification. *)
Definition str (v : py_value) : string :=
  match v with
  | PyInt z => str_of_int z
  | PyStr s => s
  | PyStrList l => repr_list l
  end.

(** Names in scope, innermost binding first. *)
Definition namespace : Type := list (string * py_value).

Fixpoint lookup (ns : namespace) (name : string) : outcome py_value :=
  match ns with
  | [] => Raised NameError
  | (k, v) :: rest => if String.eqb k name then Returned v else lookup rest name
  end.

(** An f-string: literal text and replacement fields [{name}]. *)
Inductive fpart : Type :=
| Lit (s : string)
| Field (name : string).

Definition fstring : Type := list fpart.

Fixpoint render (ns : namespace) (f : fstring) : outcome string :=
  match f with
  | [] => Returned EmptyString
  | Lit s :: rest =>
      tail <- render ns rest ;;
      Returned (s ++ tail)
  | Field name :: rest =>
      v <- lookup ns name ;;
      tail <- render ns rest ;;
      Returned (str v ++ tail)
  end.

(** The templates are written one source line per entry. *)
Definition Q : fpart := Lit (str1 dquote).

Fixpoint join_lines (lines : list (list fpart)) : fstring :=
  match lines with
  | [] => []
  | [l] => l
  | l :: rest => (l ++ Lit (str1 newline) :: join_lines rest)%list
  end.

(** The list literal bound to [scope_files]. *)
Definition scope_files : list string :=
  [ "contract/AElf.Contracts.Association/Association.cs"
  ; "contract/AElf.Contracts.Association/AssociationConstants.cs"
  ; "contract/AElf.Contracts.Association/AssociationContract_ACS1_TransactionFeeProvider.cs"
  ; "contract/AElf.Contracts.Association/AssociationReferenceState.cs"
  ; "contract/AElf.Contracts.Association/AssociationState.cs"
  ; "contract/AElf.Contracts.Association/Association_Extensions.cs"
  ; "contract/AElf.Contracts.Association/Association_Helper.cs"
  ; "contract/AElf.Contracts.Association/OrganizationMemberList.cs"
  ; "contract/AElf.Contracts.Configuration/ConfigurationContract.cs"
  ; "contract/AElf.Contracts.Configuration/ConfigurationContract_ACS1_TransactionFeeProvider.cs"
  ; "contract/AElf.Contracts.Configuration/ConfigurationContract_Helper.cs"
  ; "contract/AElf.Contracts.Configuration/ConfigurationReferenceState.cs"
  ; "contract/AElf.Contracts.Configuration/ConfigurationState.cs"
  ; "contract/AElf.Contracts.Consensus.AEDPoS/AEDPoSContract.cs"
  ; "contract/AElf.Contracts.Consensus.AEDPoS/AEDPoSContractConstants.cs"
  ; "contract/AElf.Contracts.Consensus.AEDPoS/AEDPoSContract_ACS11_CrossChainInformationProvider.cs"
  ; "contract/AElf.Contracts.Consensus.AEDPoS/AEDPoSContract_ACS1_TransactionFeeProvider.cs"
  ; "contract/AElf.Contracts.Consensus.AEDPoS/AEDPoSContract_ACS4_ConsensusInformationProvider.cs"
  ; "contract/AElf.Contracts.Consensus.AEDPoS/AEDPoSContract_CacheFileds.cs"
  ; "contract/AElf.Contracts.Consensus.AEDPoS/AEDPoSContract_GetConsensusBlockExtraData.cs"
  ; "contract/AElf.Contracts.Consensus.AEDPoS/AEDPoSContract_GetConsensusCommand.cs"
  ; "contract/AElf.Contracts.Consensus.AEDPoS/AEDPoSContract_GetMaximumBlocksCount.cs"
  ; "contract/AElf.Contracts.Consensus.AEDPoS/AEDPoSContract_HelpMethods.cs"
  ; "contract/AElf.Contracts.Consensus.AEDPoS/AEDPoSContract_LIB.cs"
  ; "contract/AElf.Contracts.Consensus.AEDPoS/AEDPoSContract_MaximumMinersCount.cs"
  ; "contract/AElf.Contracts.Consensus.AEDPoS/AEDPoSContract_NextTerm.cs"
  ; "contract/AElf.Contracts.Consensus.AEDPoS/AEDPoSContract_ProcessConsensusInformation.cs"
  ; "contract/AElf.Contracts.Consensus.AEDPoS/AEDPoSContract_SecretSharing.cs"
  ; "contract/AElf.Contracts.Consensus.AEDPoS/AEDPoSContract_SideChainDividendsPool.cs"
  ; "contract/AElf.Contracts.Consensus.AEDPoS/AEDPoSContract_Validation.cs"
  ; "contract/AElf.Contracts.Consensus.AEDPoS/AEDPoSContract_ValidationService.cs"
  ; "contract/AElf.Contracts.Consensus.AEDPoS/AEDPoSContract_ViewMethods.cs"
  ; "contract/AElf.Contracts.Consensus.AEDPoS/AElfConsensusContractState.cs"
  ; "contract/AElf.Contracts.Consensus.AEDPoS/ConsensusCommandGeneration/ConsensusBehaviourProviderBase.cs"
  ; "contract/AElf.Contracts.Consensus.AEDPoS/ConsensusCommandGeneration/ConsensusCommandProvider.cs"
  ; "contract/AElf.Contracts.Consensus.AEDPoS/ConsensusCommandGeneration/MainChainConsensusBehaviourProvider.cs"
  ; "contract/AElf.Contracts.Consensus.AEDPoS/ConsensusCommandGeneration/MiningTimeArrangingService.cs"
  ; "contract/AElf.Contracts.Consensus.AEDPoS/ConsensusCommandGeneration/SideChainConsensusBehaviourProvider.cs"
  ; "contract/AElf.Contracts.Consensus.AEDPoS/ConsensusCommandGeneration/Strategies/CommandStrategyBase.cs"
  ; "contract/AElf.Contracts.Consensus.AEDPoS/ConsensusCommandGeneration/Strategies/FirstRoundCommandStrategy.cs"
  ; "contract/AElf.Contracts.Consensus.AEDPoS/ConsensusCommandGeneration/Strategies/ICommandStrategy.cs"
  ; "contract/AElf.Contracts.Consensus.AEDPoS/ConsensusCommandGeneration/Strategies/NormalBlockCommandStrategy.cs"
  ; "contract/AElf.Contracts.Consensus.AEDPoS/ConsensusCommandGeneration/Strategies/TerminateRoundCommandStrategy.cs"
  ; "contract/AElf.Contracts.Consensus.AEDPoS/ConsensusCommandGeneration/Strategies/TinyBlockCommandStrategy.cs"
  ; "contract/AElf.Contracts.Consensus.AEDPoS/ConsensusHeaderInfoValidationProviders/ConsensusValidationContext.cs"
  ; "contract/AElf.Contracts.Consensus.AEDPoS/ConsensusHeaderInfoValidationProviders/ContinuousBlocksValidationProvider.cs"
  ; "contract/AElf.Contracts.Consensus.AEDPoS/ConsensusHeaderInfoValidationProviders/IHeaderInformationValidationProvider.cs"
  ; "contract/AElf.Contracts.Consensus.AEDPoS/ConsensusHeaderInfoValidationProviders/LibInformationValidationProvider.cs"
  ; "contract/AElf.Contracts.Consensus.AEDPoS/ConsensusHeaderInfoValidationProviders/MiningPermissionValidationProvider.cs"
  ; "contract/AElf.Contracts.Consensus.AEDPoS/ConsensusHeaderInfoValidationProviders/NextRoundMiningOrderValidationProvider.cs"
  ; "contract/AElf.Contracts.Consensus.AEDPoS/ConsensusHeaderInfoValidationProviders/RoundTerminateValidationProvider.cs"
  ; "contract/AElf.Contracts.Consensus.AEDPoS/ConsensusHeaderInfoValidationProviders/TimeSlotValidationProvider.cs"
  ; "contract/AElf.Contracts.Consensus.AEDPoS/ConsensusHeaderInfoValidationProviders/UpdateValueValidationProvider.cs"
  ; "contract/AElf.Contracts.Consensus.AEDPoS/ContractsReferences.cs"
  ; "contract/AElf.Contracts.Consensus.AEDPoS/Types/MinerList.cs"
  ; "contract/AElf.Contracts.Consensus.AEDPoS/Types/NextRoundInput.cs"
  ; "contract/AElf.Contracts.Consensus.AEDPoS/Types/NextTermInput.cs"
  ; "contract/AElf.Contracts.Consensus.AEDPoS/Types/Round.cs"
  ; "contract/AElf.Contracts.Consensus.AEDPoS/Types/Round_ApplyNormalConsensusData.cs"
  ; "contract/AElf.Contracts.Consensus.AEDPoS/Types/Round_ArrangeAbnormalMiningTime.cs"
  ; "contract/AElf.Contracts.Consensus.AEDPoS/Types/Round_ExtractInformationToUpdateConsensus.cs"
  ; "contract/AElf.Contracts.Consensus.AEDPoS/Types/Round_Generation.cs"
  ; "contract/AElf.Contracts.Consensus.AEDPoS/Types/Round_GetLighterRound.cs"
  ; "contract/AElf.Contracts.Consensus.AEDPoS/Types/Round_GetLogs.cs"
  ; "contract/AElf.Contracts.Consensus.AEDPoS/Types/Round_ImpliedIrreversibleBlockHeight.cs"
  ; "contract/AElf.Contracts.Consensus.AEDPoS/Types/Round_Recover.cs"
  ; "contract/AElf.Contracts.Consensus.AEDPoS/Types/Round_Simplify.cs"
  ; "contract/AElf.Contracts.CrossChain/CrossChainContract.cs"
  ; "contract/AElf.Contracts.CrossChain/CrossChainContractState.cs"
  ; "contract/AElf.Contracts.CrossChain/CrossChainContract_ACS1_TransactionFeeProvider.cs"
  ; "contract/AElf.Contracts.CrossChain/CrossChainContract_Constants.cs"
  ; "contract/AElf.Contracts.CrossChain/CrossChainContract_Helper.cs"
  ; "contract/AElf.Contracts.CrossChain/CrossChainContract_View.cs"
  ; "contract/AElf.Contracts.CrossChain/CrossChainReferenceState.cs"
  ; "contract/AElf.Contracts.Economic/EconomicContract.cs"
  ; "contract/AElf.Contracts.Economic/EconomicContractConstants.cs"
  ; "contract/AElf.Contracts.Economic/EconomicContractState.cs"
  ; "contract/AElf.Contracts.Economic/EconomicContract_ACS1_TransactionFeeProvider.cs"
  ; "contract/AElf.Contracts.Election/ElectionContractConstants.cs"
  ; "contract/AElf.Contracts.Election/ElectionContractReferenceState.cs"
  ; "contract/AElf.Contracts.Election/ElectionContractState.cs"
  ; "contract/AElf.Contracts.Election/ElectionContract_ACS1_TransactionFeeProvider.cs"
  ; "contract/AElf.Contracts.Election/ElectionContract_Candidate.cs"
  ; "contract/AElf.Contracts.Election/ElectionContract_Elector.cs"
  ; "contract/AElf.Contracts.Election/ElectionContract_Maintainence.cs"
  ; "contract/AElf.Contracts.Election/TimestampHelper.cs"
  ; "contract/AElf.Contracts.Election/ViewMethods.cs"
  ; "contract/AElf.Contracts.Genesis/BasicContractZero.cs"
  ; "contract/AElf.Contracts.Genesis/BasicContractZeroContract_ACS1_TransactionFeeProvider.cs"
  ; "contract/AElf.Contracts.Genesis/BasicContractZeroReferenceState.cs"
  ; "contract/AElf.Contracts.Genesis/BasicContractZeroState.cs"
  ; "contract/AElf.Contracts.Genesis/BasicContractZero_Constants.cs"
  ; "contract/AElf.Contracts.Genesis/BasicContractZero_Helper.cs"
  ; "contract/AElf.Contracts.MultiToken/TokenContractConstants.cs"
  ; "contract/AElf.Contracts.MultiToken/TokenContractReferenceState.cs"
  ; "contract/AElf.Contracts.MultiToken/TokenContractState.cs"
  ; "contract/AElf.Contracts.MultiToken/TokenContractState_ChargeFee.cs"
  ; "contract/AElf.Contracts.MultiToken/TokenContract_ACS1_MethodFeeProvider.cs"
  ; "contract/AElf.Contracts.MultiToken/TokenContract_ACS2_StatePathsProvider.cs"
  ; "contract/AElf.Contracts.MultiToken/TokenContract_Actions.cs"
  ; "contract/AElf.Contracts.MultiToken/TokenContract_CacheFileds.cs"
  ; "contract/AElf.Contracts.MultiToken/TokenContract_Delegation.cs"
  ; "contract/AElf.Contracts.MultiToken/TokenContract_Fee_Calculate_Coefficient.cs"
  ; "contract/AElf.Contracts.MultiToken/TokenContract_Fees.cs"
  ; "contract/AElf.Contracts.MultiToken/TokenContract_Helper.cs"
  ; "contract/AElf.Contracts.MultiToken/TokenContract_Method_Authorization.cs"
  ; "contract/AElf.Contracts.MultiToken/TokenContract_NFTHelper.cs"
  ; "contract/AElf.Contracts.MultiToken/TokenContract_NFT_Actions.cs"
  ; "contract/AElf.Contracts.MultiToken/TokenContract_Views.cs"
  ; "contract/AElf.Contracts.NFT/NFTContractConstants.cs"
  ; "contract/AElf.Contracts.NFT/NFTContractReferenceState.cs"
  ; "contract/AElf.Contracts.NFT/NFTContractState.cs"
  ; "contract/AElf.Contracts.NFT/NFTContract_ACS1.cs"
  ; "contract/AElf.Contracts.NFT/NFTContract_Create.cs"
  ; "contract/AElf.Contracts.NFT/NFTContract_Helpers.cs"
  ; "contract/AElf.Contracts.NFT/NFTContract_UseChain.cs"
  ; "contract/AElf.Contracts.NFT/NFTContract_View.cs"
  ; "contract/AElf.Contracts.Parliament/Parliament.cs"
  ; "contract/AElf.Contracts.Parliament/ParliamentConstants.cs"
  ; "contract/AElf.Contracts.Parliament/ParliamentContract_ACS1_TransactionFeeProvider.cs"
  ; "contract/AElf.Contracts.Parliament/ParliamentState.cs"
  ; "contract/AElf.Contracts.Parliament/Parliament_Constants.cs"
  ; "contract/AElf.Contracts.Parliament/Parliament_Helper.cs"
  ; "contract/AElf.Contracts.Profit/ContractsReferences.cs"
  ; "contract/AElf.Contracts.Profit/Models/RemovedDetails.cs"
  ; "contract/AElf.Contracts.Profit/ProfitContract.cs"
  ; "contract/AElf.Contracts.Profit/ProfitContractConstants.cs"
  ; "contract/AElf.Contracts.Profit/ProfitContractState.cs"
  ; "contract/AElf.Contracts.Profit/ProfitContract_ACS1_TransactionFeeProvider.cs"
  ; "contract/AElf.Contracts.Profit/ViewMethods.cs"
  ; "contract/AElf.Contracts.Referendum/ProposerWhiteListExtensions.cs"
  ; "contract/AElf.Contracts.Referendum/Referendum.cs"
  ; "contract/AElf.Contracts.Referendum/ReferendumConstants.cs"
  ; "contract/AElf.Contracts.Referendum/ReferendumContract_ACS1_TransactionFeeProvider.cs"
  ; "contract/AElf.Contracts.Referendum/ReferendumState.cs"
  ; "contract/AElf.Contracts.Referendum/Referendum_Helper.cs"
  ; "contract/AElf.Contracts.TokenConverter/BancorHelper.cs"
  ; "contract/AElf.Contracts.TokenConverter/InvalidValueException.cs"
  ; "contract/AElf.Contracts.TokenConverter/TokenConvert_Views.cs"
  ; "contract/AElf.Contracts.TokenConverter/TokenConverterContract.cs"
  ; "contract/AElf.Contracts.TokenConverter/TokenConverterContractState.cs"
  ; "contract/AElf.Contracts.TokenConverter/TokenConverterContract_ACS1_TransactionFeeProvider.cs"
  ; "contract/AElf.Contracts.TokenHolder/ContractsReferences.cs"
  ; "contract/AElf.Contracts.TokenHolder/TokenHolderContract.cs"
  ; "contract/AElf.Contracts.TokenHolder/TokenHolderContractState.cs"
  ; "contract/AElf.Contracts.TokenHolder/TokenHolderContract_ACS1_TransactionFeeProvider.cs"
  ; "contract/AElf.Contracts.Treasury/ContractsReferences.cs"
  ; "contract/AElf.Contracts.Treasury/TreasuryContract.cs"
  ; "contract/AElf.Contracts.Treasury/TreasuryContractConstants.cs"
  ; "contract/AElf.Contracts.Treasury/TreasuryContractState.cs"
  ; "contract/AElf.Contracts.Treasury/TreasuryContract_ACS1_TransactionFeeProvider.cs"
  ; "contract/AElf.Contracts.Vote/ContractsReferences.cs"
  ; "contract/AElf.Contracts.Vote/ViewMethods.cs"
  ; "contract/AElf.Contracts.Vote/VoteContract.cs"
  ; "contract/AElf.Contracts.Vote/VoteContractConstants.cs"
  ; "contract/AElf.Contracts.Vote/VoteContractState.cs"
  ; "contract/AElf.Contracts.Vote/VoteContract_ACS1_TransactionFeeProvider.cs"
  ; "contract/AElf.Contracts.Vote/VoteExtensions.cs"

  ; "contract/AElf.Contracts.Association/Association.cs"
  ; "contract/AElf.Contracts.Association/AssociationConstants.cs"
  ; "contract/AElf.Contracts.Association/AssociationContract_ACS1_TransactionFeeProvider.cs"
  ; "contract/AElf.Contracts.Association/AssociationReferenceState.cs"
  ; "contract/AElf.Contracts.Association/AssociationState.cs"
  ; "contract/AElf.Contracts.Association/Association_Extensions.cs"
  ; "contract/AElf.Contracts.Association/Association_Helper.cs"
  ; "contract/AElf.Contracts.Association/OrganizationMemberList.cs"
  ; "contract/AElf.Contracts.Configuration/ConfigurationContract.cs"
  ; "contract/AElf.Contracts.Configuration/ConfigurationContract_ACS1_TransactionFeeProvider.cs"
  ; "contract/AElf.Contracts.Configuration/ConfigurationContract_Helper.cs"
  ; "contract/AElf.Contracts.Configuration/ConfigurationReferenceState.cs"
  ; "contract/AElf.Contracts.Configuration/ConfigurationState.cs"
  ; "contract/AElf.Contracts.Consensus.AEDPoS/AEDPoSContract.cs"
  ; "contract/AElf.Contracts.Consensus.AEDPoS/AEDPoSContractConstants.cs"
  ; "contract/AElf.Contracts.Consensus.AEDPoS/AEDPoSContract_ACS11_CrossChainInformationProvider.cs"
  ; "contract/AElf.Contracts.Consensus.AEDPoS/AEDPoSContract_ACS1_TransactionFeeProvider.cs"
  ; "contract/AElf.Contracts.Consensus.AEDPoS/AEDPoSContract_ACS4_ConsensusInformationProvider.cs"
  ; "contract/AElf.Contracts.Consensus.AEDPoS/AEDPoSContract_CacheFileds.cs"
  ; "contract/AElf.Contracts.Consensus.AEDPoS/AEDPoSContract_GetConsensusBlockExtraData.cs"
  ; "contract/AElf.Contracts.Consensus.AEDPoS/AEDPoSContract_GetConsensusCommand.cs"
  ; "contract/AElf.Contracts.Consensus.AEDPoS/AEDPoSContract_GetMaximumBlocksCount.cs"
  ; "contract/AElf.Contracts.Consensus.AEDPoS/AEDPoSContract_HelpMethods.cs"
  ; "contract/AElf.Contracts.Consensus.AEDPoS/AEDPoSContract_LIB.cs"
  ; "contract/AElf.Contracts.Consensus.AEDPoS/AEDPoSContract_MaximumMinersCount.cs"
  ; "contract/AElf.Contracts.Consensus.AEDPoS/AEDPoSContract_NextTerm.cs"
  ; "contract/AElf.Contracts.Consensus.AEDPoS/AEDPoSContract_ProcessConsensusInformation.cs"
  ; "contract/AElf.Contracts.Consensus.AEDPoS/AEDPoSContract_SecretSharing.cs"
  ; "contract/AElf.Contracts.Consensus.AEDPoS/AEDPoSContract_SideChainDividendsPool.cs"
  ; "contract/AElf.Contracts.Consensus.AEDPoS/AEDPoSContract_Validation.cs"
  ; "contract/AElf.Contracts.Consensus.AEDPoS/AEDPoSContract_ValidationService.cs"
  ; "contract/AElf.Contracts.Consensus.AEDPoS/AEDPoSContract_ViewMethods.cs"
  ; "contract/AElf.Contracts.Consensus.AEDPoS/AElfConsensusContractState.cs"
  ; "contract/AElf.Contracts.Consensus.AEDPoS/ConsensusCommandGeneration/ConsensusBehaviourProviderBase.cs"
  ; "contract/AElf.Contracts.Consensus.AEDPoS/ConsensusCommandGeneration/ConsensusCommandProvider.cs"
  ; "contract/AElf.Contracts.Consensus.AEDPoS/ConsensusCommandGeneration/MainChainConsensusBehaviourProvider.cs"
  ; "contract/AElf.Contracts.Consensus.AEDPoS/ConsensusCommandGeneration/MiningTimeArrangingService.cs"
  ; "contract/AElf.Contracts.Consensus.AEDPoS/ConsensusCommandGeneration/SideChainConsensusBehaviourProvider.cs"
  ; "contract/AElf.Contracts.Consensus.AEDPoS/ConsensusCommandGeneration/Strategies/CommandStrategyBase.cs"
  ; "contract/AElf.Contracts.Consensus.AEDPoS/ConsensusCommandGeneration/Strategies/FirstRoundCommandStrategy.cs"
  ; "contract/AElf.Contracts.Consensus.AEDPoS/ConsensusCommandGeneration/Strategies/ICommandStrategy.cs"
  ; "contract/AElf.Contracts.Consensus.AEDPoS/ConsensusCommandGeneration/Strategies/NormalBlockCommandStrategy.cs"
  ; "contract/AElf.Contracts.Consensus.AEDPoS/ConsensusCommandGeneration/Strategies/TerminateRoundCommandStrategy.cs"
  ; "contract/AElf.Contracts.Consensus.AEDPoS/ConsensusCommandGeneration/Strategies/TinyBlockCommandStrategy.cs"
  ; "contract/AElf.Contracts.Consensus.AEDPoS/ConsensusHeaderInfoValidationProviders/ConsensusValidationContext.cs"
  ; "contract/AElf.Contracts.Consensus.AEDPoS/ConsensusHeaderInfoValidationProviders/ContinuousBlocksValidationProvider.cs"
  ; "contract/AElf.Contracts.Consensus.AEDPoS/ConsensusHeaderInfoValidationProviders/IHeaderInformationValidationProvider.cs"
  ; "contract/AElf.Contracts.Consensus.AEDPoS/ConsensusHeaderInfoValidationProviders/LibInformationValidationProvider.cs"
  ; "contract/AElf.Contracts.Consensus.AEDPoS/ConsensusHeaderInfoValidationProviders/MiningPermissionValidationProvider.cs"
  ; "contract/AElf.Contracts.Consensus.AEDPoS/ConsensusHeaderInfoValidationProviders/NextRoundMiningOrderValidationProvider.cs"
  ; "contract/AElf.Contracts.Consensus.AEDPoS/ConsensusHeaderInfoValidationProviders/RoundTerminateValidationProvider.cs"
  ; "contract/AElf.Contracts.Consensus.AEDPoS/ConsensusHeaderInfoValidationProviders/TimeSlotValidationProvider.cs"
  ; "contract/AElf.Contracts.Consensus.AEDPoS/ConsensusHeaderInfoValidationProviders/UpdateValueValidationProvider.cs"
  ; "contract/AElf.Contracts.Consensus.AEDPoS/ContractsReferences.cs"
  ; "contract/AElf.Contracts.Consensus.AEDPoS/Types/MinerList.cs"
  ; "contract/AElf.Contracts.Consensus.AEDPoS/Types/NextRoundInput.cs"
  ; "contract/AElf.Contracts.Consensus.AEDPoS/Types/NextTermInput.cs"
  ; "contract/AElf.Contracts.Consensus.AEDPoS/Types/Round.cs"
  ; "contract/AElf.Contracts.Consensus.AEDPoS/Types/Round_ApplyNormalConsensusData.cs"
  ; "contract/AElf.Contracts.Consensus.AEDPoS/Types/Round_ArrangeAbnormalMiningTime.cs"
  ; "contract/AElf.Contracts.Consensus.AEDPoS/Types/Round_ExtractInformationToUpdateConsensus.cs"
  ; "contract/AElf.Contracts.Consensus.AEDPoS/Types/Round_Generation.cs"
  ; "contract/AElf.Contracts.Consensus.AEDPoS/Types/Round_GetLighterRound.cs"
  ; "contract/AElf.Contracts.Consensus.AEDPoS/Types/Round_GetLogs.cs"
  ; "contract/AElf.Contracts.Consensus.AEDPoS/Types/Round_ImpliedIrreversibleBlockHeight.cs"
  ; "contract/AElf.Contracts.Consensus.AEDPoS/Types/Round_Recover.cs"
  ; "contract/AElf.Contracts.Consensus.AEDPoS/Types/Round_Simplify.cs"
  ; "contract/AElf.Contracts.CrossChain/CrossChainContract.cs"
  ; "contract/AElf.Contracts.CrossChain/CrossChainContractState.cs"
  ; "contract/AElf.Contracts.CrossChain/CrossChainContract_ACS1_TransactionFeeProvider.cs"
  ; "contract/AElf.Contracts.CrossChain/CrossChainContract_Constants.cs"
  ; "contract/AElf.Contracts.CrossChain/CrossChainContract_Helper.cs"
  ; "contract/AElf.Contracts.CrossChain/CrossChainContract_View.cs"
  ; "contract/AElf.Contracts.CrossChain/CrossChainReferenceState.cs"
  ; "contract/AElf.Contracts.Economic/EconomicContract.cs"
  ; "contract/AElf.Contracts.Economic/EconomicContractConstants.cs"
  ; "contract/AElf.Contracts.Economic/EconomicContractState.cs"
  ; "contract/AElf.Contracts.Economic/EconomicContract_ACS1_TransactionFeeProvider.cs"
  ; "contract/AElf.Contracts.Election/ElectionContractConstants.cs"
  ; "contract/AElf.Contracts.Election/ElectionContractReferenceState.cs"
  ; "contract/AElf.Contracts.Election/ElectionContractState.cs"
  ; "contract/AElf.Contracts.Election/ElectionContract_ACS1_TransactionFeeProvider.cs"
  ; "contract/AElf.Contracts.Election/ElectionContract_Candidate.cs"
  ; "contract/AElf.Contracts.Election/ElectionContract_Elector.cs"
  ; "contract/AElf.Contracts.Election/ElectionContract_Maintainence.cs"
  ; "contract/AElf.Contracts.Election/TimestampHelper.cs"
  ; "contract/AElf.Contracts.Election/ViewMethods.cs"
  ; "contract/AElf.Contracts.Genesis/BasicContractZero.cs"
  ; "contract/AElf.Contracts.Genesis/BasicContractZeroContract_ACS1_TransactionFeeProvider.cs"
  ; "contract/AElf.Contracts.Genesis/BasicContractZeroReferenceState.cs"
  ; "contract/AElf.Contracts.Genesis/BasicContractZeroState.cs"
  ; "contract/AElf.Contracts.Genesis/BasicContractZero_Constants.cs"
  ; "contract/AElf.Contracts.Genesis/BasicContractZero_Helper.cs"
  ; "contract/AElf.Contracts.MultiToken/TokenContractConstants.cs"
  ; "contract/AElf.Contracts.MultiToken/TokenContractReferenceState.cs"
  ; "contract/AElf.Contracts.MultiToken/TokenContractState.cs"
  ; "contract/AElf.Contracts.MultiToken/TokenContractState_ChargeFee.cs"
  ; "contract/AElf.Contracts.MultiToken/TokenContract_ACS1_MethodFeeProvider.cs"
  ; "contract/AElf.Contracts.MultiToken/TokenContract_ACS2_StatePathsProvider.cs"
  ; "contract/AElf.Contracts.MultiToken/TokenContract_Actions.cs"
  ; "contract/AElf.Contracts.MultiToken/TokenContract_CacheFileds.cs"
  ; "contract/AElf.Contracts.MultiToken/TokenContract_Delegation.cs"
  ; "contract/AElf.Contracts.MultiToken/TokenContract_Fee_Calculate_Coefficient.cs"
  ; "contract/AElf.Contracts.MultiToken/TokenContract_Fees.cs"
  ; "contract/AElf.Contracts.MultiToken/TokenContract_Helper.cs"
  ; "contract/AElf.Contracts.MultiToken/TokenContract_Method_Authorization.cs"
  ; "contract/AElf.Contracts.MultiToken/TokenContract_NFTHelper.cs"
  ; "contract/AElf.Contracts.MultiToken/TokenContract_NFT_Actions.cs"
  ; "contract/AElf.Contracts.MultiToken/TokenContract_Views.cs"
  ; "contract/AElf.Contracts.NFT/NFTContractConstants.cs"
  ; "contract/AElf.Contracts.NFT/NFTContractReferenceState.cs"
  ; "contract/AElf.Contracts.NFT/NFTContractState.cs"
  ; "contract/AElf.Contracts.NFT/NFTContract_ACS1.cs"
  ; "contract/AElf.Contracts.NFT/NFTContract_Create.cs"
  ; "contract/AElf.Contracts.NFT/NFTContract_Helpers.cs"
  ; "contract/AElf.Contracts.NFT/NFTContract_UseChain.cs"
  ; "contract/AElf.Contracts.NFT/NFTContract_View.cs"
  ; "contract/AElf.Contracts.Parliament/Parliament.cs"
  ; "contract/AElf.Contracts.Parliament/ParliamentConstants.cs"
  ; "contract/AElf.Contracts.Parliament/ParliamentContract_ACS1_TransactionFeeProvider.cs"
  ; "contract/AElf.Contracts.Parliament/ParliamentState.cs"
  ; "contract/AElf.Contracts.Parliament/Parliament_Constants.cs"
  ; "contract/AElf.Contracts.Parliament/Parliament_Helper.cs"
  ; "contract/AElf.Contracts.Profit/ContractsReferences.cs"
  ; "contract/AElf.Contracts.Profit/Models/RemovedDetails.cs"
  ; "contract/AElf.Contracts.Profit/ProfitContract.cs"
  ; "contract/AElf.Contracts.Profit/ProfitContractConstants.cs"
  ; "contract/AElf.Contracts.Profit/ProfitContractState.cs"
  ; "contract/AElf.Contracts.Profit/ProfitContract_ACS1_TransactionFeeProvider.cs"
  ; "contract/AElf.Contracts.Profit/ViewMethods.cs"
  ; "contract/AElf.Contracts.Referendum/ProposerWhiteListExtensions.cs"
  ; "contract/AElf.Contracts.Referendum/Referendum.cs"
  ; "contract/AElf.Contracts.Referendum/ReferendumConstants.cs"
  ; "contract/AElf.Contracts.Referendum/ReferendumContract_ACS1_TransactionFeeProvider.cs"
  ; "contract/AElf.Contracts.Referendum/ReferendumState.cs"
  ; "contract/AElf.Contracts.Referendum/Referendum_Helper.cs"
  ; "contract/AElf.Contracts.TokenConverter/BancorHelper.cs"
  ; "contract/AElf.Contracts.TokenConverter/InvalidValueException.cs"
  ; "contract/AElf.Contracts.TokenConverter/TokenConvert_Views.cs"
  ; "contract/AElf.Contracts.TokenConverter/TokenConverterContract.cs"
  ; "contract/AElf.Contracts.TokenConverter/TokenConverterContractState.cs"
  ; "contract/AElf.Contracts.TokenConverter/TokenConverterContract_ACS1_TransactionFeeProvider.cs"
  ; "contract/AElf.Contracts.TokenHolder/ContractsReferences.cs"
  ; "contract/AElf.Contracts.TokenHolder/TokenHolderContract.cs"
  ; "contract/AElf.Contracts.TokenHolder/TokenHolderContractState.cs"
  ; "contract/AElf.Contracts.TokenHolder/TokenHolderContract_ACS1_TransactionFeeProvider.cs"
  ; "contract/AElf.Contracts.Treasury/ContractsReferences.cs"
  ; "contract/AElf.Contracts.Treasury/TreasuryContract.cs"
  ; "contract/AElf.Contracts.Treasury/TreasuryContractConstants.cs"
  ; "contract/AElf.Contracts.Treasury/TreasuryContractState.cs"
  ; "contract/AElf.Contracts.Treasury/TreasuryContract_ACS1_TransactionFeeProvider.cs"
  ; "contract/AElf.Contracts.Vote/ContractsReferences.cs"
  ; "contract/AElf.Contracts.Vote/ViewMethods.cs"
  ; "contract/AElf.Contracts.Vote/VoteContract.cs"
  ; "contract/AElf.Contracts.Vote/VoteContractConstants.cs"
  ; "contract/AElf.Contracts.Vote/VoteContractState.cs"
  ; "contract/AElf.Contracts.Vote/VoteContract_ACS1_TransactionFeeProvider.cs"
  ; "contract/AElf.Contracts.Vote/VoteExtensions.cs"


  ].

(** The f-string of [question_generator]. *)
Definition question_generator_prompt : fstring :=
  join_lines
    [ []
    ; [Lit "# **Generate 150+ Targeted Security Audit Questions for AElf Core Smart Contracts (C#)**"]
    ; []
    ; [Lit "## **Context**"]
    ; []
    ; [Lit "The target project is **AElf**'s C# smart-contract suite that runs on the AElf blockchain. Major domains:"]
    ; [Lit "- **Consensus (AEDPoS)**: round generation, miner lists, time slots, secret sharing, consensus command generation, maximum miner count and emergency behaviours."]
    ; [Lit "- **Governance & Authorization**: Parliament, Referendum, Association multi-sig, Configuration, Genesis (BasicContractZero) method fee provider, organization thresholds, proposal lifecycle, proposer whitelists."]
    ; [Lit "- **Economics & Treasury**: Economic parameters, Treasury reserves, Profit distributions, TokenHolder dividends, method-fee collection and distribution."]
    ; [Lit "- **Tokens & Assets**: MultiToken (fungible/NFT issuance, mint/burn, allowances), NFT contract, TokenConverter (Bancor-based swap/price curve), TokenHolder staking/lockers."]
    ; [Lit "- **Cross-Chain**: CrossChain indexing/verification, side-chain block header validation, merkle proofs, irreversible block height handling."]
    ; [Lit "- **Elections & Voting**: Election and Vote contracts, candidate management, elector vote locking and reward settlement."]
    ; []
    ; [Lit "## **Scope**"]
    ; []
    ; [Lit "**CRITICAL TARGET FILE**: Focus question generation EXCLUSIVELY on `"; Field "target_file"; Lit "`"]
    ; []
    ; [Lit "Questions must be generated from `"; Field "target_file"; Lit "` only. If you cannot reach 150 questions from this file, produce as many high-quality, file-specific questions as possible. If the file exceeds ~1000 lines, go up to 300+ questions. Do not return empty results."]
    ; []
    ; [Lit "## **Core AElf Components** (for reference only)"]
    ; []
    ; [Lit "```python"]
    ; [Lit "core_components = ["]
    ; [Lit "    "; Q; Lit "contract/AElf.Contracts.Consensus.AEDPoS/*"; Q; Lit ","]
    ; [Lit "    "; Q; Lit "contract/AElf.Contracts.CrossChain/*"; Q; Lit ","]
    ; [Lit "    "; Q; Lit "contract/AElf.Contracts.Parliament/*"; Q; Lit ","]
    ; [Lit "    "; Q; Lit "contract/AElf.Contracts.Referendum/*"; Q; Lit ","]
    ; [Lit "    "; Q; Lit "contract/AElf.Contracts.Association/*"; Q; Lit ","]
    ; [Lit "    "; Q; Lit "contract/AElf.Contracts.Configuration/*"; Q; Lit ","]
    ; [Lit "    "; Q; Lit "contract/AElf.Contracts.Economic/*"; Q; Lit ","]
    ; [Lit "    "; Q; Lit "contract/AElf.Contracts.Treasury/*"; Q; Lit ","]
    ; [Lit "    "; Q; Lit "contract/AElf.Contracts.Profit/*"; Q; Lit ","]
    ; [Lit "    "; Q; Lit "contract/AElf.Contracts.Vote/*"; Q; Lit ","]
    ; [Lit "    "; Q; Lit "contract/AElf.Contracts.Election/*"; Q; Lit ","]
    ; [Lit "    "; Q; Lit "contract/AElf.Contracts.MultiToken/*"; Q; Lit ","]
    ; [Lit "    "; Q; Lit "contract/AElf.Contracts.NFT/*"; Q; Lit ","]
    ; [Lit "    "; Q; Lit "contract/AElf.Contracts.TokenConverter/*"; Q; Lit ","]
    ; [Lit "    "; Q; Lit "contract/AElf.Contracts.TokenHolder/*"; Q; Lit ","]
    ; [Lit "    "; Q; Lit "contract/AElf.Contracts.Genesis/*"; Q; Lit ","]
    ; [Lit "]"]
    ; [Lit "```"]
    ; []
    ; [Lit "## **Critical Invariant Areas**"]
    ; []
    ; [Lit "- **Auth & Governance**: proposal creation/approval thresholds, organization auth (Parliament/Association/Referendum), proposer whitelist checks, method fee provider auth, token whitelist/blacklist rules."]
    ; [Lit "- **Consensus Safety**: round updates, miner list transitions, time-slot validation, consensus command correctness, LIB height calculations, secret-sharing flows, punishment and dividends distribution."]
    ; [Lit "- **Token & Supply Integrity**: mint/burn constraints, allowance/approval checks, fee deductions, lock/unlock flows, NFT issuance uniqueness, delegation logic."]
    ; [Lit "- **Economic & Treasury Accounting**: Profit/Treasury share calculations, donation/release mechanics, dividend pool distribution, TokenHolder reward math."]
    ; [Lit "- **Cross-Chain Verification**: merkle proof validation, index heights, parent-chain info integrity, side-chain creation/indexing security, re-org handling."]
    ; [Lit "- **Converter & Pricing**: Bancor formula correctness, reserve balances, price slippage limits, insufficient reserve handling."]
    ; []
    ; [Lit "## **In-Scope Vulnerability Categories**"]
    ; []
    ; [Lit "- Authorization/governance bypass enabling unauthorized proposal execution, token mint/burn, fee changes, or config updates."]
    ; [Lit "- Consensus or cross-chain validation flaws enabling fake headers, incorrect round transitions, or mining schedule corruption."]
    ; [Lit "- Accounting/math errors causing supply inflation/deflation, dividend misallocation, or fee leakage."]
    ; [Lit "- Lock/vesting/approval bugs allowing premature withdrawals or denial of rewards."]
    ; [Lit "- Pricing or reserve-handling mistakes in TokenConverter leading to underpriced swaps or pool depletion."]
    ; [Lit "- DOS vectors that freeze governance, consensus progress, cross-chain indexing, or token operations through valid calls."]
    ; []
    ; [Lit "## **Question Format Template**"]
    ; []
    ; [Lit "Each question MUST follow this Python list format:"]
    ; []
    ; [Lit "```python"]
    ; [Lit "questions = ["]
    ; [Lit "    "; Q; Lit "[File: "; Field "target_file"; Lit "] [Function: functionName()] [Vulnerability Type] Specific exploit scenario with preconditions, violated invariant, attacker action, and concrete impact? (High)"; Q; Lit ","]
    ; [Lit "]"]
    ; [Lit "```"]
    ; []
    ; [Lit "## **Output Requirements**"]
    ; []
    ; [Lit "Generate questions focusing EXCLUSIVELY on `"; Field "target_file"; Lit "` that:"]
    ; [Lit "- Reference real functions/methods/logic blocks in `"; Field "target_file"; Lit "`"]
    ; [Lit "- Include concrete exploit paths, not generic checks"]
    ; [Lit "- Tie each question to math logic, business logic, or invariant breaks"]
    ; [Lit "- Prioritize questions likely to result in **valid vulnerabilities**"]
    ; [Lit "- Avoid low-signal or non-exploitable questions"]
    ; [Lit "- Include severity `(Critical/High/Medium/Low)` in each question"]
    ; [Lit "- Use exact Python list format"]
    ; []
    ; [Lit "## **Target Question Count**"]
    ; []
    ; [Lit "- Small files: 80-150 questions when possible"]
    ; [Lit "- Medium files: 150+ questions"]
    ; [Lit "- Very large files (>1000 lines): 300+ questions"]
    ; [Lit "- If code size limits quantity, output as many quality questions as possible"]
    ; []
    ; [Lit "Begin generating questions for `"; Field "target_file"; Lit "` now."]
    ; []
    ].

(** The f-string of [validation_format]. *)
Definition validation_format_prompt : fstring :=
  join_lines
    [ []
    ; [Lit "You are an **Elite AElf Smart Contract Security Judge** with deep expertise in C# contracts, AElf runtime semantics, AEDPoS consensus, governance organizations (Parliament/Referendum/Association), MultiToken/NFT supply rules, TokenConverter pricing, Profit/Treasury distributions, cross-chain indexing, and election/vote mechanics."]
    ; []
    ; [Lit "Your ONLY task is **ruthless technical validation** of the claim below."]
    ; []
    ; [Lit "Trusted roles: genesis method-fee provider, organization controllers (Parliament/Association/Referendum), consensus system contracts; assume they are honest unless the claim is about mis-scoped privileges."]
    ; []
    ; [Lit "**SECURITY CLAIM TO VALIDATE:**"]
    ; [Field "report"]
    ; []
    ; [Lit "================================================================================"]
    ; [Lit "## **AELF VALIDATION FRAMEWORK**"]
    ; []
    ; [Lit "### **PHASE 1: IMMEDIATE DISQUALIFICATION CHECKS**"]
    ; [Lit "Reject immediately (`#NoVulnerability`) if **ANY** apply."]
    ; []
    ; [Lit "Before a vulnerability is valid it must have BOTH:"]
    ; [Lit "1) concrete impact to protocol/users/funds/state integrity"]
    ; [Lit "2) feasible likelihood / trigger path"]
    ; []
    ; [Lit "If it cannot be triggered realistically, reject (except directly reachable invariant breaks)."]
    ; []
    ; [Lit "Return MUST be either:"]
    ; [Lit "- the original report (if valid)"]
    ; [Lit "- `#NoVulnerability` (if invalid)"]
    ; []
    ; [Lit "Any vuln without valid protocol impact is invalid."]
    ; [Lit "Attacker self-harm-only scenarios are invalid."]
    ; []
    ; [Lit "#### **A. Scope Violations**"]
    ; [Lit "- ❌ Affects files not in production source scope"]
    ; [Lit "- ❌ Targets tests, mocks, examples, scripts, docs, comments, style-only issues"]
    ; [Lit "- ❌ Off-chain tooling instead of on-chain contract logic"]
    ; []
    ; [Lit "**In-Scope AElf smart contract files**"]
    ; [Lit "```python"]
    ; [Lit "scope_files = "; Field "scope_files"]
    ; [Lit "```"]
    ; []
    ; [Lit "#### **B. Threat Model Violations**"]
    ; [Lit "- ❌ Requires compromised genesis/organization/consensus keys"]
    ; [Lit "- ❌ Assumes consensus break or chain reorg control beyond protocol rules"]
    ; [Lit "- ❌ Breaks cryptographic primitives or AElf VM internals"]
    ; [Lit "- ❌ Relies on phishing/social engineering/wallet compromise"]
    ; [Lit "- ❌ Pure network-layer attacks (DDoS/BGP/DNS/etc.)"]
    ; []
    ; [Lit "#### **C. Non-Security / Known Issues**"]
    ; [Lit "- ❌ Already fixed/known with no live exploit path"]
    ; [Lit "- ❌ Gas/performance/style tweaks without security impact"]
    ; [Lit "- ❌ Logging/events/doc-only issues"]
    ; [Lit "- ❌ Theoretical concerns with no executable path/impact"]
    ; []
    ; [Lit "#### **D. Invalid Exploit Scenarios**"]
    ; [Lit "- ❌ Impossible inputs or unreachable internal-only methods"]
    ; [Lit "- ❌ Requires privileges attacker cannot obtain"]
    ; [Lit "- ❌ Needs self-loss with no protocol invariant break"]
    ; [Lit "- ❌ No measurable impact on balances, ownership, authorization, or availability"]
    ; []
    ; [Lit "### **PHASE 2: AELF DEEP CODE VALIDATION**"]
    ; []
    ; [Lit "#### **Step 1: Trace Complete Execution Path**"]
    ; [Lit "Reconstruct:"]
    ; [Lit "1. Entry point (public method on the contract)"]
    ; [Lit "2. Full call chain"]
    ; [Lit "3. Pre-state (organization thresholds, proposal status, miner list/round info, token balances/allowances/locks, reserve balances, profit/treasury pools, cross-chain index heights)"]
    ; [Lit "4. State transitions at each step"]
    ; [Lit "5. Existing guards (authority checks, proposal approvals, fee deduction, time/height checks, supply bounds, signature/proof validation, duplicate protection)"]
    ; [Lit "6. Final post-state and violated invariant"]
    ; []
    ; [Lit "If any step is missing or unreachable, return `#NoVulnerability`."]
    ; []
    ; [Lit "#### **Step 2: Evidence Requirements**"]
    ; [Lit "A valid report must provide:"]
    ; [Lit "- Exact file path(s) and relevant code references"]
    ; [Lit "- Concrete vulnerable logic and bypass explanation"]
    ; [Lit "- Triggerable transaction flow with realistic attacker actions"]
    ; [Lit "- Why protections do not stop it"]
    ; [Lit "- Quantified impact (fund loss/supply inflation, unauthorized config/proposal execution, cross-chain spoofing, governance capture)"]
    ; []
    ; [Lit "Red flags -> invalid:"]
    ; [Lit "- “might be vulnerable” without exploit sequence"]
    ; [Lit "- no clear invariant broken"]
    ; [Lit "- no impact beyond revert/no-op"]
    ; [Lit "- assumptions that contradict AElf VM and contract semantics"]
    ; []
    ; [Lit "#### **Step 3: AELF-Specific Validity Checks**"]
    ; [Lit "Validate against these domains:"]
    ; []
    ; [Lit "1. **Governance & Auth**"]
    ; [Lit "- Parliament/Association/Referendum thresholds, proposer whitelist, organization hashes, proposal lifetime, method-fee provider authority."]
    ; []
    ; [Lit "2. **Consensus**"]
    ; [Lit "- Round transitions, miner schedule, time-slot validation, maximum miners, LIB height, secret sharing, dividends pool handling."]
    ; []
    ; [Lit "3. **Tokens & Supply**"]
    ; [Lit "- MultiToken mint/burn rules, allowances, fee deductions, lock/unlock, NFT uniqueness, delegation/approval paths."]
    ; []
    ; [Lit "4. **Economics & Rewards**"]
    ; [Lit "- Treasury/Profit/TokenHolder calculations, donation/release logic, share/distribution math, vote staking/lock durations."]
    ; []
    ; [Lit "5. **Cross-Chain**"]
    ; [Lit "- Merkle proof validation, side-chain index heights, parent-chain info retrieval, irreversible block constraints."]
    ; []
    ; [Lit "6. **Pricing (TokenConverter)**"]
    ; [Lit "- Bancor formula, reserve ratio bounds, slippage controls, insufficient reserve handling, price rounding."]
    ; []
    ; [Lit "### **PHASE 3: IMPACT + LIKELIHOOD JUDGMENT**"]
    ; []
    ; [Lit "Valid ONLY if BOTH are true:"]
    ; []
    ; [Lit "1. **Impact**"]
    ; [Lit "- Fund loss/misdirection, supply inflation/deflation, reward misallocation"]
    ; [Lit "- Unauthorized governance/config/fee changes"]
    ; [Lit "- Consensus or cross-chain integrity break"]
    ; [Lit "- High-confidence DoS of governance/consensus/token operations"]
    ; []
    ; [Lit "2. **Likelihood**"]
    ; [Lit "- Executable by untrusted actor via public methods"]
    ; [Lit "- Realistic preconditions"]
    ; [Lit "- Reproducible under AElf runtime rules"]
    ; []
    ; [Lit "If either fails -> `#NoVulnerability`."]
    ; []
    ; [Lit "### **DECISION OUTPUT (STRICT)**"]
    ; [Lit "           "]
    ; [Lit "---            "]
    ; [Lit "            "]
    ; [Lit "**AUDIT REPORT FORMAT** (if vulnerability found):            "]
    ; [Lit "            "]
    ; [Lit "Audit Report            "]
    ; [Lit "            "]
    ; [Lit "## Title "]
    ; [Lit "The Title Of the Report "]
    ; []
    ; [Lit "## Summary"]
    ; [Lit "A short summary of the issue, keep it brief."]
    ; []
    ; [Lit "## Finding Description"]
    ; [Lit "A more detailed explanation of the issue. Poorly written or incorrect findings may result in rejection and a decrease of reputation score."]
    ; []
    ; [Lit "Describe which security guarantees it breaks and how it breaks them. If this bug does not automatically happen, showcase how a malicious input would propagate through the system to the part of the code where the issue occurs."]
    ; []
    ; [Lit "## Impact Explanation"]
    ; [Lit "Elaborate on why you've chosen a particular impact assessment."]
    ; []
    ; [Lit "## Likelihood Explanation"]
    ; [Lit "Explain how likely this is to occur and why."]
    ; []
    ; []
    ; [Lit "## Recommendation"]
    ; [Lit "How can the issue be fixed or solved. Preferably, you can also add a snippet of the fixed code here."]
    ; []
    ; []
    ; [Lit "## Proof of Concept"]
    ; [Lit "Note very important the poc must have a valid test that runs just one function that proove the vuln "]
    ; [Lit "  **Remember**: False positives harm credibility more than missed findings. Assume claims are invalid until overwhelming evidence proves otherwise.    "]
    ; [Lit "    "]
    ; [Lit "**Now perform STRICT validation of the claim above.**    "]
    ; [Lit "    "]
    ; [Lit "**Output ONLY:**    "]
    ; [Lit "- A full audit report (if genuinely valid after passing **all** checks above) following the specified format    "]
    ; [Lit "- `#NoVulnerability found for this question.` (if **any** check fails) very important    "]
    ; [Lit "- Note if u cant validate the claim or dont understand just send #NoVulnerability    "]
    ; [Lit "- Only show full report when u know this is actually and truly a  valid vulnerability "]
    ; []
    ].

(** The f-string of [audit_format]. *)
Definition audit_format_prompt : fstring :=
  join_lines
    [ [Lit "# AELF SMART CONTRACT SECURITY AUDIT PROMPT"]
    ; []
    ; [Lit "## Security Question to Investigate:"]
    ; [Field "security_question"]
    ; []
    ; [Lit "## Codebase Context"]
    ; []
    ; [Lit "### Core Components"]
    ; [Lit "You are auditing **AElf** C# contracts that include:"]
    ; [Lit "- **Consensus (AEDPoS)**: round generation, miner lists, time slots, consensus command generation, dividends pool."]
    ; [Lit "- **Governance**: Parliament, Association (multi-sig), Referendum, Configuration, Genesis method fee provider."]
    ; [Lit "- **Economics & Rewards**: Economic initialization, Treasury, Profit, TokenHolder staking/dividends."]
    ; [Lit "- **Tokens & Assets**: MultiToken (fungible + NFT), NFT contract, TokenConverter (Bancor pricing), TokenHolder locking."]
    ; [Lit "- **Cross-Chain**: CrossChain indexing/verification, parent/side-chain info, irreversible block heights."]
    ; [Lit "- **Elections & Voting**: Election and Vote contracts managing candidates, electors, vote locks."]
    ; []
    ; [Lit "## CRITICAL INVARIANTS (Must Hold at All Times)"]
    ; []
    ; [Lit "1. **Authorization & Governance**"]
    ; [Lit "- Organization thresholds, proposer whitelist checks, proposal lifetime/expiration, correct organization hash resolution, method-fee provider authority."]
    ; []
    ; [Lit "2. **Consensus & Cross-Chain**"]
    ; [Lit "- Correct round transitions and time-slot validation, miner schedule integrity, LIB height rules, cross-chain proof verification and index heights."]
    ; []
    ; [Lit "3. **Token Supply & Fees**"]
    ; [Lit "- Mint/burn limits, allowance/approval enforcement, lock/unlock correctness, fee deduction paths, NFT uniqueness and ownership checks."]
    ; []
    ; [Lit "4. **Economics & Treasury**"]
    ; [Lit "- Profit/Treasury/TokenHolder share calculations, donation/release logic, dividend distribution and settlement accuracy."]
    ; []
    ; [Lit "5. **Pricing & Reserves**"]
    ; [Lit "- Bancor reserve ratio bounds, swap price calculation, slippage controls, reserve depletion protection."]
    ; []
    ; [Lit "## ATTACK SURFACES"]
    ; []
    ; [Lit "### 1. Governance & Proposals"]
    ; [Lit "- Parliament/Association/Referendum proposal creation, approval thresholds, release, and execution paths; organization updates; proposer whitelist logic."]
    ; []
    ; [Lit "### 2. Consensus & Cross-Chain"]
    ; [Lit "- Round/term update functions, time-slot validation, miner list mutations, consensus command generation, parent/side-chain indexing, merkle proof verification."]
    ; []
    ; [Lit "### 3. Token & Fee Paths"]
    ; [Lit "- MultiToken mint/burn/transfer/lock, method-fee deduction, NFT mint/transfer, token approvals, TokenHolder deposits/withdrawals."]
    ; []
    ; [Lit "### 4. Economics & Distribution"]
    ; [Lit "- Treasury donations/releases, Profit scheme creation/distribution, TokenHolder dividends, election reward allocations."]
    ; []
    ; [Lit "### 5. Pricing & Conversion"]
    ; [Lit "- TokenConverter swap paths, reserve updates, virtual balances, price precision/rounding."]
    ; []
    ; [Lit "## VULNERABILITY VALIDATION REQUIREMENTS"]
    ; []
    ; [Lit "A finding is ONLY valid if it passes ALL checks:"]
    ; []
    ; [Lit "### Impact Assessment (Must be Concrete)"]
    ; [Lit "- [ ] **Direct Fund Impact**: theft, inflation/deflation, reward misallocation"]
    ; [Lit "- [ ] **Auth/Governance Impact**: unauthorized proposal execution/config change"]
    ; [Lit "- [ ] **Consensus/Cross-Chain Integrity**: fake header/proof acceptance, invalid round transitions"]
    ; [Lit "- [ ] **Operational Impact**: DoS of governance/consensus/token/cross-chain flows"]
    ; []
    ; [Lit "### Likelihood Assessment (Must be Practical)"]
    ; [Lit "- [ ] **Reachable Entry Point**: starts from real public method"]
    ; [Lit "- [ ] **Feasible Preconditions**: attacker capabilities realistic"]
    ; [Lit "- [ ] **Execution Practicality**: steps executable under AElf contract semantics"]
    ; [Lit "- [ ] **Economic Rationality**: exploit cost reasonable"]
    ; []
    ; [Lit "### Validation Checklist"]
    ; [Lit "Before reporting a vulnerability, verify:"]
    ; [Lit "1. [ ] Exact file/function/line references"]
    ; [Lit "2. [ ] Root cause clearly identified"]
    ; [Lit "3. [ ] End-to-end exploitation path"]
    ; [Lit "4. [ ] Existing checks shown insufficient"]
    ; [Lit "5. [ ] Realistic attack parameters and sequence"]
    ; [Lit "6. [ ] Concrete impact quantification"]
    ; [Lit "7. [ ] No reliance on trusted role compromise beyond claim"]
    ; [Lit "8. [ ] No contradiction with AElf VM/execution model"]
    ; []
    ; [Lit "## AUDIT REPORT FORMAT"]
    ; []
    ; [Lit "If a valid vulnerability is found (passes all checks), output this EXACT structure:"]
    ; []
    ; [Lit "### Title"]
    ; [Lit "[Concise vulnerability title]"]
    ; []
    ; [Lit "### Summary"]
    ; [Lit "[2-3 sentence summary of issue and consequence]"]
    ; []
    ; [Lit "### Finding Description"]
    ; [Lit "[Technical details including:"]
    ; [Lit "- exact code location(s)"]
    ; [Lit "- root cause"]
    ; [Lit "- why protections fail"]
    ; [Lit "- relevant execution path]"]
    ; []
    ; [Lit "### Impact Explanation"]
    ; [Lit "[Concrete impact:"]
    ; [Lit "- what harm occurs"]
    ; [Lit "- quantified value/protocol damage"]
    ; [Lit "- who is affected"]
    ; [Lit "- severity justification]"]
    ; []
    ; [Lit "### Likelihood Explanation"]
    ; [Lit "[Realistic exploitability:"]
    ; [Lit "- attacker capabilities"]
    ; [Lit "- attack complexity"]
    ; [Lit "- feasibility conditions"]
    ; [Lit "- detection/operational constraints"]
    ; [Lit "- probability reasoning]"]
    ; []
    ; [Lit "### Recommendation"]
    ; [Lit "[Actionable fix:"]
    ; [Lit "- exact code-level mitigation"]
    ; [Lit "- invariant checks to add"]
    ; [Lit "- test cases to prevent regression]"]
    ; []
    ; [Lit "### Proof of Concept"]
    ; [Lit "[Reproducible exploit sequence:"]
    ; [Lit "- required initial state"]
    ; [Lit "- transaction steps"]
    ; [Lit "- expected vs actual result"]
    ; [Lit "- clear success condition]"]
    ; []
    ; [Lit "## STRICT OUTPUT REQUIREMENT"]
    ; []
    ; [Lit "After investigation:"]
    ; []
    ; [Lit "IF a vulnerability passes ALL validation gates with clear evidence:"]
    ; [Lit "-> Output the complete audit report in the format above"]
    ; []
    ; [Lit "IF no valid vulnerability exists:"]
    ; [Lit "-> Output exactly: "; Q; Lit "#NoVulnerability found for this question."; Q]
    ; []
    ; [Lit "Do not output anything else."]
    ; []
    ; [Lit "## Investigation Guidelines"]
    ; []
    ; [Lit "1. Start from entry functions reachable by untrusted users"]
    ; [Lit "2. Trace full state transitions and all side effects"]
    ; [Lit "3. Check math/rounding/bounds and extreme values"]
    ; [Lit "4. Check cross-contract flows (consensus <-> governance <-> token <-> profit/treasury <-> converter <-> cross-chain)"]
    ; [Lit "5. Validate authority/time/height checks end-to-end"]
    ; [Lit "6. Reject speculative findings lacking concrete exploit path"]
    ; []
    ; [Lit "Remember: only report vulnerabilities with both valid impact and valid likelihood."]
    ; []
    ; [Lit "Begin investigation of: "; Field "security_question"]
    ; []
    ; []
    ].

(** The f-string of [scan_format]. *)
Definition scan_format_prompt : fstring :=
  join_lines
    [ [Lit "# AELF CROSS-PROTOCOL ANALOG SCAN PROMPT"]
    ; []
    ; [Lit "## External Report To Map Into AElf"]
    ; [Field "report"]
    ; []
    ; [Lit "## Objective"]
    ; [Lit "You are a senior protocol security researcher. Analyze the external report above and determine whether the **same vulnerability class** (not necessarily exact code pattern) can occur anywhere in AElf smart contracts."]
    ; []
    ; [Lit "You must scan AElf contract logic across modules, execution paths, state transitions, and invariants."]
    ; []
    ; [Lit "## AElf Modules To Scan"]
    ; []
    ; [Lit "- `contract/AElf.Contracts.Consensus.AEDPoS/*`"]
    ; [Lit "- `contract/AElf.Contracts.CrossChain/*`"]
    ; [Lit "- `contract/AElf.Contracts.Parliament/*`"]
    ; [Lit "- `contract/AElf.Contracts.Association/*`"]
    ; [Lit "- `contract/AElf.Contracts.Referendum/*`"]
    ; [Lit "- `contract/AElf.Contracts.Configuration/*`"]
    ; [Lit "- `contract/AElf.Contracts.Genesis/*`"]
    ; [Lit "- `contract/AElf.Contracts.Election/*`"]
    ; [Lit "- `contract/AElf.Contracts.Vote/*`"]
    ; [Lit "- `contract/AElf.Contracts.MultiToken/*`"]
    ; [Lit "- `contract/AElf.Contracts.NFT/*`"]
    ; [Lit "- `contract/AElf.Contracts.TokenConverter/*`"]
    ; [Lit "- `contract/AElf.Contracts.Treasury/*`"]
    ; [Lit "- `contract/AElf.Contracts.Profit/*`"]
    ; [Lit "- `contract/AElf.Contracts.TokenHolder/*`"]
    ; []
    ; [Lit "## Core Scan Method"]
    ; []
    ; [Lit "1. **Classify the external vuln type**"]
    ; [Lit "- governance/authorization bypass"]
    ; [Lit "- consensus or cross-chain validation flaw"]
    ; [Lit "- token supply/allowance/lock/accounting error"]
    ; [Lit "- pricing/reserve miscalculation (TokenConverter)"]
    ; [Lit "- reward/treasury/profit distribution bug"]
    ; [Lit "- denial of service via valid calls (governance, consensus, cross-chain, token operations)"]
    ; []
    ; [Lit "2. **Map to AElf analog surfaces**"]
    ; [Lit "- Identify equivalent trust boundaries and data-flow points across modules"]
    ; [Lit "- Consider proposal-based execution (Parliament/Association/Referendum), consensus time-slot updates, token mint/burn/transfer/lock flows, Bancor pricing, dividend distribution, cross-chain proof verification"]
    ; [Lit "- Check cross-module interactions (e.g., proposal executes token mint; consensus uses economic data; cross-chain indexing updates token states)"]
    ; []
    ; [Lit "3. **Trace full exploitability path**"]
    ; [Lit "- Real entry point (public contract methods)"]
    ; [Lit "- Preconditions attacker can realistically satisfy"]
    ; [Lit "- Step-by-step transition chain"]
    ; [Lit "- Why current checks fail"]
    ; [Lit "- Final broken invariant"]
    ; []
    ; [Lit "4. **Validate impact + likelihood strictly**"]
    ; [Lit "- Must have concrete protocol impact"]
    ; [Lit "- Must have realistic trigger path"]
    ; [Lit "- No speculative or theoretical-only claims"]
    ; []
    ; [Lit "## Critical Invariants To Test During Scan"]
    ; []
    ; [Lit "- Governance thresholds/proposal lifetimes/organization hashes respected"]
    ; [Lit "- AEDPoS round/time-slot/miner list integrity maintained"]
    ; [Lit "- Token mint/burn/transfer/lock rules and fee deductions enforced"]
    ; [Lit "- Profit/Treasury/TokenHolder distributions correct and bounded"]
    ; [Lit "- Cross-chain proofs/irreversible height checks valid"]
    ; [Lit "- TokenConverter reserve ratio, price calculation, and slippage protections enforced"]
    ; []
    ; [Lit "## Disqualification Rules (Immediate #NoVulnerability)"]
    ; []
    ; [Lit "Reject if ANY apply:"]
    ; []
    ; [Lit "- Not reproducible through AElf public contract methods"]
    ; [Lit "- Requires compromised genesis/organization/consensus keys"]
    ; [Lit "- Depends on impossible AElf execution assumptions"]
    ; [Lit "- Only causes self-harm or non-protocol impact"]
    ; [Lit "- No concrete impact on funds, ownership, authorization, or critical availability"]
    ; [Lit "- Impact exists but no realistic likelihood"]
    ; [Lit "- Likelihood exists but no valid impact"]
    ; []
    ; [Lit "## Required Decision Standard"]
    ; []
    ; [Lit "A vulnerability is valid ONLY if BOTH are true:"]
    ; []
    ; [Lit "1. **Valid Impact**"]
    ; [Lit "- Fund theft/drain or supply/fee misrouting"]
    ; [Lit "- Unauthorized governance/config/proposal execution"]
    ; [Lit "- Consensus/cross-chain integrity break"]
    ; [Lit "- Pricing/accounting corruption in TokenConverter/Treasury/Profit"]
    ; [Lit "- High-confidence protocol DoS via valid calls"]
    ; []
    ; [Lit "2. **Valid Likelihood**"]
    ; [Lit "- Reachable by untrusted actor"]
    ; [Lit "- Feasible preconditions"]
    ; [Lit "- Executable sequence under AElf rules"]
    ; [Lit "- Not blocked by existing checks"]
    ; []
    ; [Lit "If either fails, it is invalid."]
    ; []
    ; [Lit "## Output Format (Strict)"]
    ; []
    ; [Lit "If a valid analog vulnerability is found in AElf, output full report in this exact structure:"]
    ; []
    ; [Lit "### Title"]
    ; [Lit "[Concise vulnerability title]"]
    ; []
    ; [Lit "### Summary"]
    ; [Lit "[2-3 sentence summary of mapped vulnerability and impact]"]
    ; []
    ; [Lit "### Finding Description"]
    ; [Lit "[Detailed technical mapping from external report type to AElf:"]
    ; [Lit "- exact file/function/line references"]
    ; [Lit "- root cause in AElf"]
    ; [Lit "- exploit path and why protections fail]"]
    ; []
    ; [Lit "### Impact Explanation"]
    ; [Lit "[Concrete AElf impact and severity justification]"]
    ; []
    ; [Lit "### Likelihood Explanation"]
    ; [Lit "[Realistic exploit feasibility in AElf context]"]
    ; []
    ; [Lit "### Recommendation"]
    ; [Lit "[Specific code-level mitigation for AElf]"]
    ; []
    ; [Lit "### Proof of Concept"]
    ; [Lit "[Reproducible AElf exploit steps with realistic state/inputs]"]
    ; []
    ; [Lit "If no valid analog vulnerability is found, output exactly:"]
    ; [Lit "`#NoVulnerability found for this question.`"]
    ; []
    ; [Lit "Do not output anything else."]
    ; []
    ; [Lit "## Additional Guidance"]
    ; []
    ; [Lit "- Use the external report as a vulnerability-class hint, not as proof."]
    ; [Lit "- Confirm with AElf-specific code logic only."]
    ; [Lit "- Prefer false-negative over false-positive."]
    ; [Lit "- A claim without executable exploit chain is invalid."]
    ; []
    ; [Lit "Begin deep analog scan now."]
    ; []
    ; []
    ].

(** ** The four builders

    A builder reads its argument and the module's globals, and returns its
    result with the globals as it leaves them. *)

Definition builder : Type := namespace -> string -> outcome string * namespace.

Definition question_generator : builder :=
  fun globals target_file =>
    let prompt := render (("target_file", PyStr target_file) :: globals)
                         question_generator_prompt in
    (prompt, globals).

Definition validation_format : builder :=
  fun globals report =>
    let prompt := render (("report", PyStr report) :: globals)
                         validation_format_prompt in
    (prompt, globals).

Definition audit_format : builder :=
  fun globals security_question =>
    let prompt := render (("security_question", PyStr security_question) :: globals)
                         audit_format_prompt in
    (prompt, globals).

Definition scan_format : builder :=
  fun globals report =>
    let prompt := render (("report", PyStr report) :: globals)
                         scan_format_prompt in
    (prompt, globals).

(** ** The globals after the module has been imported

    The data that the statements at module level bind, in the order of
    the statements; the import ends in an exception when the computation
    of the target URL does. *)

Definition module_globals (max_str_digits : N) (environ : list (string * string))
  : outcome namespace :=
  let rn := run_number environ in
  let head := [ ("MAX_REPO", PyInt MAX_REPO)
              ; ("SOURCE_REPO", PyStr SOURCE_REPO)
              ; ("REPO_NAME", PyStr REPO_NAME)
              ; ("run_number", PyStr rn) ] in
  if String.eqb rn "0" then
    Returned (head ++ [ ("BASE_URL", PyStr ("https://deepwiki.com/" ++ SOURCE_REPO))
                      ; ("scope_files", PyStrList scope_files) ])%list
  else
    run_index <- get_cyclic_index max_str_digits (PyStr rn) MAX_REPO ;;
    let repo_number := format_03d run_index in
    Returned (head ++ [ ("run_index", PyInt run_index)
                      ; ("repo_number", PyStr repo_number)
                      ; ("BASE_URL", PyStr ("https://deepwiki.com/grass-dev-pa/"
                                            ++ REPO_NAME ++ "-" ++ repo_number))
                      ; ("scope_files", PyStrList scope_files) ])%list.

(** Globals in which [scope_files] is still bound to the module's list. *)
Definition scope_bound (globals : namespace) : Prop :=
  lookup globals "scope_files" = Returned (PyStrList scope_files).

(** ** Substrings *)

Definition substring_of (p s : string) : Prop :=
  exists a b, s = a ++ p ++ b.

Fixpoint contains (s p : string) : bool :=
  String.prefix p s
  || match s with
     | EmptyString => false
     | String _ r => contains r p
     end.

Definition is_digit (c : ascii) : bool :=
  match digit_value c with Some _ => true | None => false end.

Definition has_digit (s : string) : bool :=
  existsb is_digit (list_ascii_of_string s).

Definition has_brace (s : string) : bool :=
  has_char "{"%char s || has_char "}"%char s.

(** Number of positions of [s] at which [p] starts. *)
Fixpoint occurrences (p s : string) : N :=
  ((if String.prefix p s then 1 else 0)
   + match s with
     | EmptyString => 0
     | String _ r => occurrences p r
     end)%N.

Fixpoint concat_all (l : list string) : string :=
  match l with
  | [] => EmptyString
  | x :: rest => x ++ concat_all rest
  end.

(** A path as [repr] shows it when it has no quote, backslash or control
    character. *)
Definition single_quoted (p : string) : string := "'" ++ p ++ "'".

(** ** The anatomy of an f-string *)

(** The names of the replacement fields, in order. *)
Fixpoint fields (f : fstring) : list string :=
  match f with
  | [] => []
  | Lit _ :: rest => fields rest
  | Field name :: rest => name :: fields rest
  end.

(** The literal text before the first field, between two fields, and after
    the last one. *)
Fixpoint literals (f : fstring) : list string :=
  match f with
  | [] => [EmptyString]
  | Lit s :: rest =>
      match literals rest with
      | [] => [s]
      | l :: ls => (s ++ l) :: ls
      end
  | Field _ :: rest => EmptyString :: literals rest
  end.

Definition segment (i : nat) (f : fstring) : string :=
  nth i (literals f) EmptyString.

(** Literal texts with one value after each but the last. *)
Fixpoint interleave (lits vals : list string) : string :=
  match lits, vals with
  | [], _ => EmptyString
  | l :: ls, [] => l ++ interleave ls []
  | l :: ls, v :: vs => l ++ v ++ interleave ls vs
  end.

(** The globals of an import with [GITHUB_RUN_NUMBER] unset. *)
Definition default_globals : namespace :=
  match module_globals 4300 [] with
  | Returned g => g
  | Raised _ => []
  end.

(** A builder that returns for every argument and leaves the globals as
    they were. *)
Definition total_and_pure (b : builder) (g : namespace) : Prop :=
  forall s, exists out, b g s = (Returned out, g).

(** Two calls in a row with one argument give one result. *)
Definition repeatable (b : builder) (g : namespace) : Prop :=
  forall s,
    let (r1, g1) := b g s in
    let (r2, g2) := b g1 s in
    r1 = r2 /\ g2 = g.

(** ** Names for the two kinds of target URL *)

Definition fixed_url : string := "https://deepwiki.com/" ++ SOURCE_REPO.

Definition rotating_url (repo_number : string) : string :=
  "https://deepwiki.com/grass-dev-pa/" ++ REPO_NAME ++ "-" ++ repo_number.

(** Texts made of whitespace only, the empty text among them. *)
Definition is_blank (s : string) : bool :=
  forallb is_space (list_ascii_of_string s).

(** An environment in which a variable is not set. *)
Definition unset (environ : list (string * string)) (key : string) : Prop :=
  forall k v, In (k, v) environ -> k <> key.

(** Sum of the lengths of some texts. *)
Fixpoint total_length (l : list string) : nat :=
  match l with
  | [] => O
  | x :: rest => (String.length x + total_length rest)%nat
  end.

(** Characters that [repr] copies as they are between quotes [quote]:
    printable ASCII other than the backslash and the quote itself. *)
Definition copied_by_repr (quote c : ascii) : bool :=
  let n := nat_of_ascii c in
  (negb (Ascii.eqb c backslash) && negb (Ascii.eqb c quote)
   && (32 <=? n) && (n <? 127))%nat.

Definition all_chars (p : ascii -> bool) (s : string) : bool :=
  forallb p (list_ascii_of_string s).

(** The checks on a padded index that the proofs below run for the
    indices from 1 to 30: three characters, read back by [int], not the
    text ["0"]. *)
Definition padded_index_ok (max_str_digits : N) (k : nat) : bool :=
  let i := Z.of_nat k in
  (String.length (format_03d i) =? 3)%nat
  && match int_of_str max_str_digits (format_03d i) with
     | Returned j => j =? i
     | Raised _ => false
     end
  && negb (String.eqb (format_03d i) "0").

(** ** Facts about the builtins *)

Lemma int_of_str_raises_only_ValueError :
  forall lim s e, int_of_str lim s = Raised e -> e = ValueError.
Proof.
  intros lim s e. unfold int_of_str.
  destruct (split_sign (skip_spaces s)) as [negative body].
  destruct (starts_with_underscore body); [congruence|].
  destruct (scan_digits body PrevNone 0 0) as [[[v nd] rest]|]; [|congruence].
  destruct (nd =? 0)%N; [congruence|].
  destruct (exceeds_digit_limit lim nd); [congruence|].
  destruct (skip_spaces rest); congruence.
Qed.

Lemma Returned_inj : forall (A : Type) (a b : A), Returned a = Returned b -> a = b.
Proof. intros A a b H. injection H. auto. Qed.

Lemma mod_nonzero : forall a b, b <> 0 -> mod_ a b = Returned (a mod b).
Proof.
  intros a b Hb. unfold mod_.
  destruct (Z.eqb_spec b 0); [contradiction|reflexivity].
Qed.

(** [get_cyclic_index] on any argument that [int] accepts. *)
Lemma get_cyclic_index_of_int :
  forall lim x run max,
    int lim x = Returned run -> max <> 0 ->
    get_cyclic_index lim x max = Returned ((run - 1) mod max + 1).
Proof.
  intros lim x run max Hint Hmax. unfold get_cyclic_index.
  rewrite Hint. cbn [bind]. rewrite (mod_nonzero _ _ Hmax). reflexivity.
Qed.

Lemma BASE_URL_rotating :
  forall lim s run,
    s <> "0" -> int_of_str lim s = Returned run ->
    BASE_URL lim s =
      Returned ("https://deepwiki.com/grass-dev-pa/aelf-"
                ++ format_03d ((run - 1) mod 30 + 1)).
Proof.
  intros lim s run Hs Hrun. unfold BASE_URL.
  destruct (String.eqb_spec s "0") as [E|_]; [contradiction|].
  rewrite (get_cyclic_index_of_int lim (PyStr s) run MAX_REPO); [|exact Hrun|discriminate].
  reflexivity.
Qed.

Lemma BASE_URL_raises :
  forall lim s e,
    s <> "0" -> int_of_str lim s = Raised e -> BASE_URL lim s = Raised ValueError.
Proof.
  intros lim s e Hs He. unfold BASE_URL, get_cyclic_index.
  destruct (String.eqb_spec s "0") as [E|_]; [contradiction|].
  cbn [int]. rewrite He. cbn [bind].
  rewrite (int_of_str_raises_only_ValueError _ _ _ He). reflexivity.
Qed.

(** A finished import has computed the target URL and bound the scope
    list. *)
Lemma module_globals_bindings :
  forall lim environ g,
    module_globals lim environ = Returned g ->
    scope_bound g /\
    exists url, BASE_URL lim (run_number environ) = Returned url /\
                lookup g "BASE_URL" = Returned (PyStr url).
Proof.
  intros lim environ g. unfold module_globals, BASE_URL, scope_bound.
  destruct (String.eqb (run_number environ) "0").
  - intros E. apply Returned_inj in E. subst g.
    split; [reflexivity|]. eexists. split; reflexivity.
  - destruct (get_cyclic_index lim (PyStr (run_number environ)) MAX_REPO)
      as [run_index|e]; cbn [bind]; [|discriminate].
    intros E. apply Returned_inj in E. subst g.
    split; [reflexivity|]. eexists. split; reflexivity.
Qed.

(** ** The cyclic index *)

(** C1: for every integer [run] and every [max >= 1], [get_cyclic_index run
    max] returns a value of the closed interval from 1 to [max]. *)
Theorem get_cyclic_index_in_range :
  forall (lim : N) (run max : Z),
    1 <= max ->
    exists v, get_cyclic_index lim (PyInt run) max = Returned v /\ 1 <= v <= max.
Proof.
  intros lim run max Hmax.
  exists ((run - 1) mod max + 1). split.
  - apply get_cyclic_index_of_int; [reflexivity|lia].
  - pose proof (Z.mod_pos_bound (run - 1) max ltac:(lia)). lia.
Qed.

Lemma get_cyclic_index_in_range_witness :
  exists v, get_cyclic_index 4300 (PyInt (-61)) 30 = Returned v /\ 1 <= v <= 30.
Proof.
  apply (get_cyclic_index_in_range 4300 (-61) 30). lia.
Defined.

(** C2: [get_cyclic_index run max] is [((run - 1) mod max) + 1] for the
    remainder [r] of [run - 1] with [0 <= r < max], so 0, 1, 30 and 31 are
    sent to 30, 1, 30 and 1 when [max] is 30. *)
Theorem get_cyclic_index_formula :
  forall (lim : N) (run max : Z),
    1 <= max ->
    (exists q r, run - 1 = max * q + r /\ 0 <= r < max /\
                 get_cyclic_index lim (PyInt run) max = Returned (r + 1)) /\
    get_cyclic_index lim (PyInt run) max = Returned ((run - 1) mod max + 1) /\
    get_cyclic_index lim (PyInt 0) 30 = Returned 30 /\
    get_cyclic_index lim (PyInt 1) 30 = Returned 1 /\
    get_cyclic_index lim (PyInt 30) 30 = Returned 30 /\
    get_cyclic_index lim (PyInt 31) 30 = Returned 1.
Proof.
  intros lim run max Hmax.
  assert (Hgen : get_cyclic_index lim (PyInt run) max
                 = Returned ((run - 1) mod max + 1)).
  { apply get_cyclic_index_of_int; [reflexivity|lia]. }
  split; [|split; [exact Hgen|repeat split; reflexivity]].
  exists ((run - 1) / max), ((run - 1) mod max). split; [|split].
  - apply Z.div_mod. lia.
  - apply Z.mod_pos_bound. lia.
  - exact Hgen.
Qed.

Lemma get_cyclic_index_formula_witness :
  get_cyclic_index 4300 (PyInt (-5)) 30 = Returned 25.
Proof.
  exact (proj1 (proj2 (get_cyclic_index_formula 4300 (-5) 30 ltac:(lia)))).
Defined.

(** ** The target URL *)

(** C3: with the counter ["0"], also when the variable is unset, the target
    URL is the fixed one, which has no digit in it; with the counter ["31"]
    it is the rotating one and holds the padded index ["001"]. *)
Theorem BASE_URL_counter_0_and_31 :
  forall lim : N,
    run_number [] = "0" /\
    run_number [("GITHUB_RUN_NUMBER", "31")] = "31" /\
    lookup default_globals "BASE_URL"
      = Returned (PyStr "https://deepwiki.com/AElfProject/AElf") /\
    BASE_URL lim "0" = Returned "https://deepwiki.com/AElfProject/AElf" /\
    has_digit "https://deepwiki.com/AElfProject/AElf" = false /\
    BASE_URL lim "31" = Returned ("https://deepwiki.com/grass-dev-pa/aelf-" ++ "001") /\
    substring_of "001" ("https://deepwiki.com/grass-dev-pa/aelf-" ++ "001").
Proof.
  intro lim. repeat split; try reflexivity.
  exists "https://deepwiki.com/grass-dev-pa/aelf-", EmptyString. reflexivity.
Qed.

(** C4, as the code has it: a counter other than ["0"] that [int] rejects
    makes the computation of the target URL, and with it the import of the
    module, end in the [ValueError] that [int] raises; no URL is bound. *)
Theorem BASE_URL_invalid_counter_raises_ValueError :
  forall (lim : N) (s : string),
    s <> "0" ->
    is_ascii_str s = true ->
    (forall n, int_of_str lim s <> Returned n) ->
    BASE_URL lim s = Raised ValueError /\
    exception_name ValueError = "ValueError" /\
    forall environ, run_number environ = s ->
                    module_globals lim environ = Raised ValueError.
Proof.
  intros lim s Hs _ Hbad.
  destruct (int_of_str lim s) as [n|e] eqn:E; [exfalso; exact (Hbad n eq_refl)|].
  split; [exact (BASE_URL_raises lim s e Hs E)|]. split; [reflexivity|].
  intros environ Hrn. unfold module_globals. rewrite Hrn.
  destruct (String.eqb_spec s "0") as [E0|_]; [contradiction|].
  unfold get_cyclic_index. cbn [int]. rewrite E. cbn [bind].
  rewrite (int_of_str_raises_only_ValueError _ _ _ E). reflexivity.
Qed.

Lemma BASE_URL_invalid_counter_witness :
  BASE_URL 4300 "abc" = Raised ValueError /\
  exception_name ValueError = "ValueError" /\
  forall environ, run_number environ = "abc" ->
                  module_globals 4300 environ = Raised ValueError.
Proof.
  apply (BASE_URL_invalid_counter_raises_ValueError 4300 "abc").
  - discriminate.
  - reflexivity.
  - intros n. vm_compute. discriminate.
Defined.

(** C4, as stated, at the counter ["abc"]: the exception that ends the
    computation is [ValueError], not one named [InvalidInput]. *)
Lemma BASE_URL_abc_is_not_InvalidInput :
  BASE_URL 4300 "abc" = Raised ValueError /\
  ~ (exists e, BASE_URL 4300 "abc" = Raised e /\ exception_name e = "InvalidInput").
Proof.
  split; [reflexivity|].
  intros [e [He Hname]]. vm_compute in He. inversion He; subst e.
  discriminate Hname.
Qed.

(** C10: the fixed URL is chosen by comparing the text of the counter with
    ["0"]; every other text that [int] reads as 0, such as ["00"], ["+0"]
    and ["-0"], gives the rotating URL with index ["030"]. *)
Theorem BASE_URL_zero_by_text_only :
  forall (lim : N) (s : string),
    int_of_str lim s = Returned 0 ->
    s <> "0" ->
    BASE_URL lim s = Returned ("https://deepwiki.com/grass-dev-pa/aelf-" ++ "030") /\
    BASE_URL lim s <> BASE_URL lim "0" /\
    int_of_str lim "00" = Returned 0 /\
    int_of_str lim "+0" = Returned 0 /\
    int_of_str lim "-0" = Returned 0 /\
    BASE_URL lim "00" = Returned ("https://deepwiki.com/grass-dev-pa/aelf-" ++ "030") /\
    BASE_URL lim "+0" = Returned ("https://deepwiki.com/grass-dev-pa/aelf-" ++ "030") /\
    BASE_URL lim "-0" = Returned ("https://deepwiki.com/grass-dev-pa/aelf-" ++ "030").
Proof.
  intros lim s Hzero Hs.
  assert (H : BASE_URL lim s
              = Returned ("https://deepwiki.com/grass-dev-pa/aelf-" ++ "030")).
  { rewrite (BASE_URL_rotating lim s 0 Hs Hzero). reflexivity. }
  split; [exact H|]. split; [rewrite H; discriminate|].
  repeat split; reflexivity.
Qed.

Lemma BASE_URL_zero_by_text_only_witness :
  BASE_URL 4300 "00" = Returned ("https://deepwiki.com/grass-dev-pa/aelf-" ++ "030").
Proof.
  apply (BASE_URL_zero_by_text_only 4300 "00"); [reflexivity|discriminate].
Defined.

(** ** Facts about strings *)

Lemma append_assoc : forall a b c : string, (a ++ b) ++ c = a ++ (b ++ c).
Proof.
  induction a as [|x a IH]; intros b c; cbn; [reflexivity|].
  now rewrite IH.
Qed.

Lemma append_nil_r : forall a : string, a ++ EmptyString = a.
Proof.
  induction a as [|x a IH]; cbn; [reflexivity|]. now rewrite IH.
Qed.

Lemma length_append :
  forall a b : string,
    String.length (a ++ b) = (String.length a + String.length b)%nat.
Proof.
  induction a as [|x a IH]; intros b; cbn; [reflexivity|]. now rewrite IH.
Qed.

Lemma prefix_append : forall p b : string, String.prefix p (p ++ b) = true.
Proof.
  induction p as [|x p IH]; intros b; cbn.
  - destruct b; reflexivity.
  - destruct (ascii_dec x x) as [_|N]; [apply IH|contradiction].
Qed.

Lemma contains_complete :
  forall p s, substring_of p s -> contains s p = true.
Proof.
  intros p s [a [b ->]].
  induction a as [|x a IH]; cbn [append].
  - destruct (p ++ b) eqn:E; cbn [contains]; rewrite <- E;
      rewrite prefix_append; reflexivity.
  - cbn [contains]. rewrite IH. apply orb_true_r.
Qed.

Lemma has_char_append :
  forall c a b, has_char c (a ++ b) = has_char c a || has_char c b.
Proof.
  intros c a b. unfold has_char.
  induction a as [|x a IH]; cbn; [reflexivity|].
  rewrite IH. apply orb_assoc.
Qed.

Lemma has_brace_append :
  forall a b, has_brace (a ++ b) = false <-> has_brace a = false /\ has_brace b = false.
Proof.
  intros a b. unfold has_brace. rewrite !has_char_append.
  destruct (has_char "{" a), (has_char "}" a), (has_char "{" b), (has_char "}" b);
    cbn; intuition congruence.
Qed.

Lemma has_brace_interleave :
  forall lits vals,
    existsb has_brace lits = false ->
    existsb has_brace vals = false ->
    has_brace (interleave lits vals) = false.
Proof.
  induction lits as [|l ls IH]; intros vals Hl Hv; [reflexivity|].
  cbn [existsb] in Hl. apply orb_false_iff in Hl as [Hl Hls].
  destruct vals as [|v vs]; cbn [interleave].
  - apply has_brace_append. split; [exact Hl|]. apply IH; [exact Hls|reflexivity].
  - cbn [existsb] in Hv. apply orb_false_iff in Hv as [Hv Hvs].
    apply has_brace_append. split; [exact Hl|].
    apply has_brace_append. split; [exact Hv|]. apply IH; assumption.
Qed.

Lemma substring_of_interleave_head :
  forall lits s vs, lits <> [] -> substring_of s (interleave lits (s :: vs)).
Proof.
  intros [|l ls] s vs H; [contradiction|].
  exists l, (interleave ls vs). reflexivity.
Qed.

(** ** Facts about f-strings *)

Lemma literals_nonempty : forall f, literals f <> [].
Proof.
  induction f as [|[s|name] rest IH]; cbn; try discriminate.
  destruct (literals rest); discriminate.
Qed.

Lemma interleave_lit :
  forall s rest vals,
    interleave (literals (Lit s :: rest)) vals = s ++ interleave (literals rest) vals.
Proof.
  intros s rest vals. cbn [literals].
  destruct (literals rest) as [|l ls] eqn:E; [now apply literals_nonempty in E|].
  destruct vals; cbn [interleave]; apply append_assoc.
Qed.

(** Rendering succeeds as soon as every field is bound, and puts the
    converted values between the literal texts. *)
Lemma render_fields :
  forall ns f vals,
    Forall2 (fun name v => lookup ns name = Returned v) (fields f) vals ->
    render ns f = Returned (interleave (literals f) (map str vals)).
Proof.
  intros ns. induction f as [|[s|name] rest IH]; intros vals H.
  - inversion H. reflexivity.
  - cbn [render fields] in *. rewrite (IH vals H). cbn [bind].
    now rewrite interleave_lit.
  - cbn [fields] in H. inversion H as [|? v ? vs Hv Hrest]; subst.
    cbn [render]. rewrite Hv. cbn [bind]. rewrite (IH vs Hrest). reflexivity.
Qed.

Lemma three_segments :
  forall f, List.length (literals f) = 3%nat ->
            literals f = [segment 0 f; segment 1 f; segment 2 f].
Proof.
  intros f H. unfold segment.
  destruct (literals f) as [|a [|b [|c [|d l]]]]; try discriminate H. reflexivity.
Qed.

(** ** What each builder returns *)

Lemma question_generator_returns :
  forall g t,
    question_generator g t =
      (Returned (interleave (literals question_generator_prompt) [t; t; t; t; t; t]), g).
Proof.
  intros g t. unfold question_generator. cbv zeta.
  rewrite (render_fields _ _ (repeat (PyStr t) 6)); [reflexivity|].
  repeat constructor.
Qed.

Lemma validation_format_returns :
  forall g report v,
    lookup g "scope_files" = Returned v ->
    validation_format g report =
      (Returned (interleave (literals validation_format_prompt) [report; str v]), g).
Proof.
  intros g report v Hv. unfold validation_format. cbv zeta.
  rewrite (render_fields _ _ [PyStr report; v]); [reflexivity|].
  repeat constructor. exact Hv.
Qed.

Lemma audit_format_returns :
  forall g q,
    audit_format g q =
      (Returned (interleave (literals audit_format_prompt) [q; q]), g).
Proof.
  intros g q. unfold audit_format. cbv zeta.
  rewrite (render_fields _ _ [PyStr q; PyStr q]); [reflexivity|].
  repeat constructor.
Qed.

Lemma scan_format_returns :
  forall g report,
    scan_format g report =
      (Returned (interleave (literals scan_format_prompt) [report]), g).
Proof.
  intros g report. unfold scan_format. cbv zeta.
  rewrite (render_fields _ _ [PyStr report]); [reflexivity|].
  repeat constructor.
Qed.

(** ** The scope list *)

Lemma scope_files_halves : skipn 158 scope_files = firstn 158 scope_files.
Proof. vm_compute. reflexivity. Qed.

Lemma scope_files_twice :
  scope_files = (firstn 158 scope_files ++ firstn 158 scope_files)%list.
Proof.
  transitivity (firstn 158 scope_files ++ skipn 158 scope_files)%list.
  - symmetry. apply firstn_skipn.
  - apply (f_equal (app (firstn 158 scope_files))).
    exact scope_files_halves.
Qed.

(** C6: [scope_files] is one sequence of 158 paths written twice, so each
    of its paths occurs in it at least twice. *)
Theorem scope_files_duplicated :
  List.length scope_files = 316%nat /\
  List.length (firstn 158 scope_files) = 158%nat /\
  skipn 158 scope_files = firstn 158 scope_files /\
  scope_files = (firstn 158 scope_files ++ firstn 158 scope_files)%list /\
  forall p, In p scope_files -> (2 <= count_occ string_dec scope_files p)%nat.
Proof.
  split; [reflexivity|]. split; [reflexivity|].
  split; [exact scope_files_halves|]. split; [exact scope_files_twice|].
  intros p Hp. rewrite scope_files_twice in Hp |- *.
  rewrite count_occ_app.
  assert (Hin : In p (firstn 158 scope_files)).
  { apply in_app_or in Hp. tauto. }
  apply (count_occ_In string_dec) in Hin. lia.
Qed.

Lemma scope_files_duplicated_witness :
  (2 <= count_occ string_dec scope_files
          "contract/AElf.Contracts.Vote/VoteExtensions.cs")%nat.
Proof.
  apply (proj2 (proj2 (proj2 (proj2 scope_files_duplicated)))).
  apply in_rev. unfold scope_files. cbn [rev app]. left. reflexivity.
Defined.

Lemma scope_files_plain :
  map repr_str scope_files = map single_quoted scope_files.
Proof.
  apply map_ext_in. intros p Hp.
  assert (H : forallb (fun p => String.eqb (repr_str p) (single_quoted p)) scope_files
              = true) by (vm_compute; reflexivity).
  rewrite forallb_forall in H. apply String.eqb_eq. exact (H p Hp).
Qed.

Lemma join_cons :
  forall sep x l, l <> [] -> join sep (x :: l) = x ++ sep ++ join sep l.
Proof.
  intros sep x [|y l] H; [contradiction|reflexivity].
Qed.

Lemma join_head :
  forall sep (f : string -> string) after p,
    join sep (f p :: map f after)
    = f p ++ concat_all (map (fun x => sep ++ f x) after).
Proof.
  intros sep f. induction after as [|a r IH]; intros p.
  - cbn. symmetry. apply append_nil_r.
  - cbn [map]. rewrite (join_cons sep (f p) (f a :: map f r)) by discriminate.
    rewrite IH. cbn [concat_all]. now rewrite append_assoc.
Qed.

(** Every item of a joined list stands between the items before it and
    the items after it. *)
Lemma join_split :
  forall sep (f : string -> string) before p after,
    join sep (map f (before ++ p :: after))
    = concat_all (map (fun x => f x ++ sep) before)
      ++ f p ++ concat_all (map (fun x => sep ++ f x) after).
Proof.
  intros sep f. induction before as [|b bs IH]; intros p after.
  - apply join_head.
  - cbn [app map]. rewrite join_cons.
    + rewrite IH. cbn [concat_all]. now rewrite !append_assoc.
    + destruct bs; discriminate.
Qed.

(** C5, as the code has it: [validation_format] embeds [str(scope_files)],
    the bracketed list of all paths in single quotes, in list order and
    separated by a comma and a space.  The prompt of [question_generator]
    has no field but [target_file] and is the same whatever the globals
    are. *)
Theorem validation_format_embeds_scope_files :
  forall (g : namespace) (report : string),
    scope_bound g ->
    validation_format g report =
      (Returned (segment 0 validation_format_prompt ++ report
                 ++ segment 1 validation_format_prompt ++ repr_list scope_files
                 ++ segment 2 validation_format_prompt), g) /\
    fields validation_format_prompt = ["report"; "scope_files"] /\
    repr_list scope_files = "[" ++ join ", " (map single_quoted scope_files) ++ "]" /\
    (forall before p after,
        scope_files = (before ++ p :: after)%list ->
        join ", " (map single_quoted scope_files)
        = concat_all (map (fun x => single_quoted x ++ ", ") before)
          ++ single_quoted p
          ++ concat_all (map (fun x => ", " ++ single_quoted x) after)) /\
    fields question_generator_prompt = repeat "target_file" 6 /\
    (forall g' t, fst (question_generator g' t) = fst (question_generator g t)).
Proof.
  intros g report Hg.
  split; [|split; [reflexivity|split; [|split; [|split; [reflexivity|]]]]].
  - rewrite (validation_format_returns g report _ Hg).
    rewrite (three_segments validation_format_prompt) by reflexivity.
    cbn [interleave str]. now rewrite append_nil_r.
  - unfold repr_list. now rewrite scope_files_plain.
  - intros before p after E. rewrite E. apply join_split.
  - intros g' t. now rewrite !question_generator_returns.
Qed.

Lemma validation_format_embeds_scope_files_witness :
  validation_format default_globals "report text" =
    (Returned (segment 0 validation_format_prompt ++ "report text"
               ++ segment 1 validation_format_prompt ++ repr_list scope_files
               ++ segment 2 validation_format_prompt), default_globals).
Proof.
  apply (validation_format_embeds_scope_files default_globals "report text").
  reflexivity.
Defined.

(** C5, as stated, at the target file [""]: the output of
    [question_generator] lacks the first path of [scope_files]. *)
Lemma question_generator_omits_scope_files :
  exists out,
    question_generator default_globals EmptyString = (Returned out, default_globals) /\
    In "contract/AElf.Contracts.Association/Association.cs" scope_files /\
    ~ substring_of "contract/AElf.Contracts.Association/Association.cs" out.
Proof.
  eexists. split; [apply question_generator_returns|]. split.
  - unfold scope_files. left. reflexivity.
  - intros H. apply contains_complete in H.
    vm_compute in H. discriminate H.
Qed.

(** ** The builders *)

Lemma literals_without_braces :
  existsb has_brace
    (literals question_generator_prompt ++ literals validation_format_prompt
     ++ literals audit_format_prompt ++ literals scan_format_prompt)%list = false.
Proof. vm_compute. reflexivity. Qed.

Lemma scope_files_without_braces : has_brace (repr_list scope_files) = false.
Proof. vm_compute. reflexivity. Qed.

Lemma total_and_pure_repeatable :
  forall b g, total_and_pure b g -> repeatable b g.
Proof.
  intros b g H s. destruct (H s) as [out E]. rewrite E, E. split; reflexivity.
Qed.

(** C7: each of the four builders returns a text for every argument,
    leaves the globals as they were, and gives the same text when it is
    called a second time with the same argument. *)
Theorem builders_deterministic :
  forall g : namespace,
    (exists v, lookup g "scope_files" = Returned v) ->
    (total_and_pure question_generator g /\ repeatable question_generator g) /\
    (total_and_pure validation_format g /\ repeatable validation_format g) /\
    (total_and_pure audit_format g /\ repeatable audit_format g) /\
    (total_and_pure scan_format g /\ repeatable scan_format g).
Proof.
  intros g [v Hv].
  assert (Hq : total_and_pure question_generator g).
  { intros s. eexists. apply question_generator_returns. }
  assert (Hval : total_and_pure validation_format g).
  { intros s. eexists. apply (validation_format_returns g s v Hv). }
  assert (Ha : total_and_pure audit_format g).
  { intros s. eexists. apply audit_format_returns. }
  assert (Hs : total_and_pure scan_format g).
  { intros s. eexists. apply scan_format_returns. }
  pose proof total_and_pure_repeatable as R.
  split; [split; [exact Hq|exact (R _ _ Hq)]|].
  split; [split; [exact Hval|exact (R _ _ Hval)]|].
  split; [split; [exact Ha|exact (R _ _ Ha)]|].
  split; [exact Hs|exact (R _ _ Hs)].
Qed.

Lemma builders_deterministic_witness :
  total_and_pure validation_format default_globals /\
  repeatable validation_format default_globals.
Proof.
  apply (builders_deterministic default_globals).
  exists (PyStrList scope_files). reflexivity.
Defined.

(** C8: the output of each builder is the literal text of its template
    with the argument at every field of the parameter, so the argument is
    a substring of it; no literal text has a brace in it, and an argument
    without braces gives an output without braces. *)
Theorem builders_embed_input :
  forall (g : namespace) (s : string),
    scope_bound g ->
    exists q v a c,
      (question_generator g s = (Returned q, g) /\
       q = interleave (literals question_generator_prompt) [s; s; s; s; s; s]) /\
      (validation_format g s = (Returned v, g) /\
       v = interleave (literals validation_format_prompt) [s; repr_list scope_files]) /\
      (audit_format g s = (Returned a, g) /\
       a = interleave (literals audit_format_prompt) [s; s]) /\
      (scan_format g s = (Returned c, g) /\
       c = interleave (literals scan_format_prompt) [s]) /\
      (substring_of s q /\ substring_of s v /\ substring_of s a /\ substring_of s c) /\
      existsb has_brace
        (literals question_generator_prompt ++ literals validation_format_prompt
         ++ literals audit_format_prompt ++ literals scan_format_prompt)%list = false /\
      has_brace (repr_list scope_files) = false /\
      (has_brace s = false ->
       has_brace q = false /\ has_brace v = false /\
       has_brace a = false /\ has_brace c = false).
Proof.
  intros g s Hg.
  pose proof literals_without_braces as HL.
  pose proof scope_files_without_braces as HS.
  do 4 eexists.
  split; [split; [apply question_generator_returns|reflexivity]|].
  split; [split; [apply (validation_format_returns g s _ Hg)|reflexivity]|].
  split; [split; [apply audit_format_returns|reflexivity]|].
  split; [split; [apply scan_format_returns|reflexivity]|].
  split; [|split; [exact HL|split; [exact HS|]]].
  - repeat apply conj;
      apply substring_of_interleave_head, literals_nonempty.
  - intros Hs.
    rewrite !existsb_app in HL.
    apply orb_false_iff in HL as [Hq HL].
    apply orb_false_iff in HL as [Hv HL].
    apply orb_false_iff in HL as [Ha Hc].
    assert (Hss : forall l, existsb has_brace l = false ->
                            existsb has_brace (s :: l) = false).
    { intros l Hl. cbn [existsb]. rewrite Hs, Hl. reflexivity. }
    split; [|split; [|split]]; apply has_brace_interleave.
    + exact Hq.
    + repeat apply Hss. reflexivity.
    + exact Hv.
    + apply Hss. cbn [existsb str]. rewrite HS. reflexivity.
    + exact Ha.
    + repeat apply Hss. reflexivity.
    + exact Hc.
    + repeat apply Hss. reflexivity.
Qed.

Lemma builders_embed_input_witness :
  exists q v a c,
    (question_generator default_globals "contract/Target.cs" = (Returned q, default_globals) /\
     q = interleave (literals question_generator_prompt)
           (repeat "contract/Target.cs" 6)) /\
    (validation_format default_globals "contract/Target.cs" = (Returned v, default_globals) /\
     v = interleave (literals validation_format_prompt)
           ["contract/Target.cs"; repr_list scope_files]) /\
    (audit_format default_globals "contract/Target.cs" = (Returned a, default_globals) /\
     a = interleave (literals audit_format_prompt) (repeat "contract/Target.cs" 2)) /\
    (scan_format default_globals "contract/Target.cs" = (Returned c, default_globals) /\
     c = interleave (literals scan_format_prompt) ["contract/Target.cs"]) /\
    (substring_of "contract/Target.cs" q /\ substring_of "contract/Target.cs" v /\
     substring_of "contract/Target.cs" a /\ substring_of "contract/Target.cs" c) /\
    existsb has_brace
      (literals question_generator_prompt ++ literals validation_format_prompt
       ++ literals audit_format_prompt ++ literals scan_format_prompt)%list = false /\
    has_brace (repr_list scope_files) = false /\
    (has_brace "contract/Target.cs" = false ->
     has_brace q = false /\ has_brace v = false /\
     has_brace a = false /\ has_brace c = false).
Proof.
  apply (builders_embed_input default_globals "contract/Target.cs").
  reflexivity.
Defined.

(** C9: [audit_format] returns its fixed text with the question at two
    places, the two fields of its template: three literal texts with the
    question after the first and after the second. *)
Theorem audit_format_embeds_question_twice :
  forall (g : namespace) (q : string),
    fields audit_format_prompt = ["security_question"; "security_question"] /\
    audit_format g q =
      (Returned (segment 0 audit_format_prompt ++ q
                 ++ segment 1 audit_format_prompt ++ q
                 ++ segment 2 audit_format_prompt), g) /\
    (forall out, fst (audit_format g q) = Returned out ->
       String.length out
       = (String.length (segment 0 audit_format_prompt)
          + String.length (segment 1 audit_format_prompt)
          + String.length (segment 2 audit_format_prompt)
          + 2 * String.length q)%nat) /\
    (exists out, fst (audit_format g "@@QUESTION@@") = Returned out /\
                 occurrences "@@QUESTION@@" out = 2%N).
Proof.
  intros g q.
  assert (H : forall x, audit_format g x =
      (Returned (segment 0 audit_format_prompt ++ x
                 ++ segment 1 audit_format_prompt ++ x
                 ++ segment 2 audit_format_prompt), g)).
  { intros x. rewrite audit_format_returns.
    rewrite (three_segments audit_format_prompt) by reflexivity.
    cbn [interleave]. now rewrite append_nil_r. }
  split; [reflexivity|]. split; [apply H|]. split.
  - intros out. rewrite H. cbn [fst]. intros E.
    apply Returned_inj in E. subst out.
    rewrite !length_append. lia.
  - eexists. split; [rewrite H; reflexivity|].
    vm_compute. reflexivity.
Qed.

(** ** More on the cyclic index *)

(** X1: the cyclic index has period [max_index] in the run number,
    whatever [max_index] is; with 0 both calls raise. *)
Theorem get_cyclic_index_periodic :
  forall (lim : N) (run k max : Z),
    get_cyclic_index lim (PyInt (run + k * max)) max
    = get_cyclic_index lim (PyInt run) max.
Proof.
  intros lim run k max. unfold get_cyclic_index. cbn [int bind]. unfold mod_.
  destruct (Z.eqb_spec max 0) as [->|Hmax]; [reflexivity|].
  cbn [bind]. do 2 f_equal.
  replace (run + k * max - 1) with (run - 1 + k * max) by lia.
  apply Z.mod_add. exact Hmax.
Qed.

(** X2: on the run numbers from 1 to [max_index] the cyclic index is the
    run number itself, so the index of an index is that index. *)
Theorem get_cyclic_index_fixes_range :
  forall (lim : N) (run max : Z),
    1 <= max ->
    (1 <= run <= max -> get_cyclic_index lim (PyInt run) max = Returned run) /\
    (forall v, get_cyclic_index lim (PyInt run) max = Returned v ->
               get_cyclic_index lim (PyInt v) max = Returned v).
Proof.
  intros lim run max Hmax.
  assert (Hfix : forall r, 1 <= r <= max ->
                           get_cyclic_index lim (PyInt r) max = Returned r).
  { intros r Hr.
    rewrite (get_cyclic_index_of_int lim (PyInt r) r max); [|reflexivity|lia].
    rewrite Z.mod_small by lia. f_equal. lia. }
  split; [apply Hfix|].
  intros v Hv. apply Hfix.
  rewrite (get_cyclic_index_of_int lim (PyInt run) run max) in Hv;
    [|reflexivity|lia].
  apply Returned_inj in Hv. subst v.
  pose proof (Z.mod_pos_bound (run - 1) max ltac:(lia)). lia.
Qed.

Lemma get_cyclic_index_fixes_range_witness :
  (1 <= 17 <= 30 -> get_cyclic_index 4300 (PyInt 17) 30 = Returned 17) /\
  (forall v, get_cyclic_index 4300 (PyInt 17) 30 = Returned v ->
             get_cyclic_index 4300 (PyInt v) 30 = Returned v).
Proof.
  apply (get_cyclic_index_fixes_range 4300 17 30). lia.
Defined.


(** X4: with a negative [max_index] the call returns, and the result lies
    between [max_index + 2] and 1, not between 1 and [max_index]. *)
Theorem get_cyclic_index_negative_max :
  forall (lim : N) (run max : Z),
    max <= -1 ->
    exists v, get_cyclic_index lim (PyInt run) max = Returned v /\
              max + 2 <= v <= 1.
Proof.
  intros lim run max Hmax.
  exists ((run - 1) mod max + 1). split.
  - apply get_cyclic_index_of_int; [reflexivity|lia].
  - pose proof (Z.mod_neg_bound (run - 1) max ltac:(lia)). lia.
Qed.

Lemma get_cyclic_index_negative_max_witness :
  exists v, get_cyclic_index 4300 (PyInt 5) (-30) = Returned v /\
            -30 + 2 <= v <= 1.
Proof.
  apply (get_cyclic_index_negative_max 4300 5 (-30)). lia.
Defined.

(** ** More on the target URL *)

Lemma padded_index_checked :
  forall lim, forallb (padded_index_ok lim) (seq 1 30) = true.
Proof. intros lim. vm_compute. reflexivity. Qed.

Lemma padded_index_facts :
  forall lim i,
    1 <= i <= 30 ->
    String.length (format_03d i) = 3%nat /\
    int_of_str lim (format_03d i) = Returned i /\
    format_03d i <> "0".
Proof.
  intros lim i Hi.
  pose proof (padded_index_checked lim) as H. rewrite forallb_forall in H.
  specialize (H (Z.to_nat i)).
  assert (Hin : In (Z.to_nat i) (seq 1 30)) by (apply in_seq; lia).
  specialize (H Hin). unfold padded_index_ok in H.
  rewrite Z2Nat.id in H by lia.
  apply andb_true_iff in H as [H H3]. apply andb_true_iff in H as [H1 H2].
  split; [apply Nat.eqb_eq; exact H1|]. split.
  - destruct (int_of_str lim (format_03d i)) as [j|e]; [|discriminate H2].
    apply Z.eqb_eq in H2. now subst j.
  - apply String.eqb_neq. now apply negb_true_iff.
Qed.

Lemma cyclic_index_bounds : forall n, 1 <= (n - 1) mod 30 + 1 <= 30.
Proof.
  intros n. pose proof (Z.mod_pos_bound (n - 1) 30 ltac:(lia)). lia.
Qed.

Lemma BASE_URL_fixed : forall lim, BASE_URL lim "0" = Returned fixed_url.
Proof. reflexivity. Qed.

Lemma BASE_URL_cases :
  forall lim s,
    s <> "0" ->
    (exists n, int_of_str lim s = Returned n /\
               BASE_URL lim s
               = Returned (rotating_url (format_03d ((n - 1) mod 30 + 1)))) \/
    (exists e, int_of_str lim s = Raised e /\ BASE_URL lim s = Raised ValueError).
Proof.
  intros lim s Hs. destruct (int_of_str lim s) as [n|e] eqn:E.
  - left. exists n. split; [reflexivity|]. exact (BASE_URL_rotating lim s n Hs E).
  - right. exists e. split; [reflexivity|]. exact (BASE_URL_raises lim s e Hs E).
Qed.

(** X5: every target URL is one of 31: the fixed one, for the counter
    ["0"] only, or a rotating one whose suffix is the cyclic index of the
    counter, between 1 and 30 and written with three digits. *)
Theorem BASE_URL_is_one_of_31 :
  forall (lim : N) (s url : string),
    BASE_URL lim s = Returned url ->
    (s = "0" /\ url = fixed_url) \/
    (s <> "0" /\
     exists n i, int_of_str lim s = Returned n /\
                 i = (n - 1) mod 30 + 1 /\ 1 <= i <= 30 /\
                 url = rotating_url (format_03d i) /\
                 String.length (format_03d i) = 3%nat).
Proof.
  intros lim s url H. destruct (String.eqb_spec s "0") as [->|Hs].
  - left. split; [reflexivity|]. rewrite BASE_URL_fixed in H.
    apply Returned_inj in H. now subst url.
  - right. split; [exact Hs|].
    destruct (BASE_URL_cases lim s Hs) as [[n [Hn Hu]]|[e [_ Hu]]];
      rewrite Hu in H; [|discriminate H].
    apply Returned_inj in H. subst url.
    exists n, ((n - 1) mod 30 + 1).
    pose proof (cyclic_index_bounds n) as Hb.
    destruct (padded_index_facts lim _ Hb) as [Hlen _].
    repeat split; try assumption; lia.
Qed.

Lemma BASE_URL_is_one_of_31_witness :
  ("-61" = "0" /\ rotating_url "029" = fixed_url) \/
  ("-61" <> "0" /\
   exists n i, int_of_str 4300 "-61" = Returned n /\
               i = (n - 1) mod 30 + 1 /\ 1 <= i <= 30 /\
               rotating_url "029" = rotating_url (format_03d i) /\
               String.length (format_03d i) = 3%nat).
Proof.
  apply (BASE_URL_is_one_of_31 4300 "-61" (rotating_url "029")). reflexivity.
Defined.


(** X7: counters that [int] reads as numbers a multiple of 30 apart
    select the same rotating URL. *)
Theorem BASE_URL_period_30 :
  forall (lim : N) (s1 s2 : string) (n k : Z),
    s1 <> "0" -> s2 <> "0" ->
    int_of_str lim s1 = Returned n ->
    int_of_str lim s2 = Returned (n + k * 30) ->
    BASE_URL lim s1 = BASE_URL lim s2.
Proof.
  intros lim s1 s2 n k H1 H2 E1 E2.
  rewrite (BASE_URL_rotating lim s1 n H1 E1).
  rewrite (BASE_URL_rotating lim s2 _ H2 E2).
  replace (n + k * 30 - 1) with (n - 1 + k * 30) by lia.
  now rewrite Z.mod_add by lia.
Qed.

Lemma BASE_URL_period_30_witness : BASE_URL 4300 "7" = BASE_URL 4300 "-53".
Proof.
  apply (BASE_URL_period_30 4300 "7" "-53" 7 (-2));
    [discriminate|discriminate|reflexivity|reflexivity].
Defined.

Lemma skip_spaces_blank : forall s, is_blank s = true -> skip_spaces s = EmptyString.
Proof.
  unfold is_blank. induction s as [|c s IH]; cbn; [reflexivity|].
  intros H. apply andb_true_iff in H as [Hc Hs]. rewrite Hc. exact (IH Hs).
Qed.

(** X8: a counter that is empty or made of whitespace only, as when the
    variable is set to nothing, makes the computation of the target URL
    and the import of the module end in [ValueError]. *)
Theorem BASE_URL_blank_counter :
  forall (lim : N) (s : string),
    is_blank s = true ->
    BASE_URL lim s = Raised ValueError /\
    forall environ, run_number environ = s ->
                    module_globals lim environ = Raised ValueError.
Proof.
  intros lim s Hblank.
  assert (Hs : s <> "0") by (intros ->; discriminate Hblank).
  assert (E : int_of_str lim s = Raised ValueError).
  { unfold int_of_str. rewrite (skip_spaces_blank s Hblank). reflexivity. }
  split; [exact (BASE_URL_raises lim s _ Hs E)|].
  intros environ Hrn. unfold module_globals. rewrite Hrn.
  destruct (String.eqb_spec s "0") as [E0|_]; [contradiction|].
  unfold get_cyclic_index. cbn [int]. rewrite E. reflexivity.
Qed.

Lemma BASE_URL_blank_counter_witness :
  BASE_URL 4300 EmptyString = Raised ValueError /\
  forall environ, run_number environ = EmptyString ->
                  module_globals 4300 environ = Raised ValueError.
Proof.
  apply (BASE_URL_blank_counter 4300 EmptyString). reflexivity.
Defined.

(** X9: the padded index of a rotating URL is itself a counter that
    selects the same URL. *)
Theorem BASE_URL_suffix_round_trip :
  forall (lim : N) (s url : string),
    s <> "0" ->
    BASE_URL lim s = Returned url ->
    exists suffix, url = rotating_url suffix /\ BASE_URL lim suffix = Returned url.
Proof.
  intros lim s url Hs H.
  destruct (BASE_URL_cases lim s Hs) as [[n [Hn Hu]]|[e [_ Hu]]];
    rewrite Hu in H; [|discriminate H].
  apply Returned_inj in H. subst url.
  pose proof (cyclic_index_bounds n) as Hb.
  set (i := (n - 1) mod 30 + 1) in *.
  destruct (padded_index_facts lim i Hb) as [_ [Hint Hne]].
  exists (format_03d i). split; [reflexivity|].
  rewrite (BASE_URL_rotating lim (format_03d i) i Hne Hint).
  rewrite Z.mod_small by lia.
  replace (i - 1 + 1) with i by lia. reflexivity.
Qed.

Lemma BASE_URL_suffix_round_trip_witness :
  exists suffix, rotating_url "001" = rotating_url suffix /\
                 BASE_URL 4300 suffix = Returned (rotating_url "001").
Proof.
  apply (BASE_URL_suffix_round_trip 4300 "31" (rotating_url "001"));
    [discriminate|reflexivity].
Defined.

(** ** More on the import *)

Lemma environ_get_unset :
  forall environ key default,
    unset environ key -> environ_get environ key default = default.
Proof.
  induction environ as [|[k v] rest IH]; intros key default H; cbn; [reflexivity|].
  destruct (String.eqb_spec k key) as [E|_].
  - exfalso. exact (H k v (or_introl eq_refl) E).
  - apply IH. intros k' v' Hin. exact (H k' v' (or_intror Hin)).
Qed.

(** X10: when [GITHUB_RUN_NUMBER] is not set the import succeeds for
    every environment: the counter is ["0"], the target URL is the fixed
    one, the scope list is bound, and the names [run_index] and
    [repo_number] of the other branch are not bound. *)
Theorem import_without_run_number :
  forall (lim : N) (environ : list (string * string)),
    unset environ "GITHUB_RUN_NUMBER" ->
    exists g,
      module_globals lim environ = Returned g /\
      lookup g "run_number" = Returned (PyStr "0") /\
      lookup g "BASE_URL" = Returned (PyStr fixed_url) /\
      scope_bound g /\
      lookup g "run_index" = Raised NameError /\
      lookup g "repo_number" = Raised NameError.
Proof.
  intros lim environ H. unfold module_globals, run_number.
  rewrite (environ_get_unset environ _ "0" H). cbn [String.eqb Ascii.eqb Bool.eqb].
  eexists. split; [reflexivity|].
  repeat apply conj; reflexivity.
Qed.

Lemma import_without_run_number_witness :
  exists g,
    module_globals 4300 [("HOME", "/root")] = Returned g /\
    lookup g "run_number" = Returned (PyStr "0") /\
    lookup g "BASE_URL" = Returned (PyStr fixed_url) /\
    scope_bound g /\
    lookup g "run_index" = Raised NameError /\
    lookup g "repo_number" = Raised NameError.
Proof.
  apply (import_without_run_number 4300 [("HOME", "/root")]).
  intros k v [E|[]]. injection E as <- _. discriminate.
Defined.

(** X11: with a counter other than ["0"] that [int] accepts the import
    succeeds and binds [run_index] to the cyclic index, [repo_number] to
    its padded text and [BASE_URL] to the rotating URL made of it. *)
Theorem import_with_run_number :
  forall (lim : N) (environ : list (string * string)) (n : Z),
    run_number environ <> "0" ->
    int_of_str lim (run_number environ) = Returned n ->
    exists g i,
      module_globals lim environ = Returned g /\
      i = (n - 1) mod 30 + 1 /\ 1 <= i <= 30 /\
      lookup g "run_index" = Returned (PyInt i) /\
      lookup g "repo_number" = Returned (PyStr (format_03d i)) /\
      lookup g "BASE_URL" = Returned (PyStr (rotating_url (format_03d i))) /\
      BASE_URL lim (run_number environ) = Returned (rotating_url (format_03d i)) /\
      scope_bound g.
Proof.
  intros lim environ n Hs Hn.
  pose proof (BASE_URL_rotating lim _ n Hs Hn) as Hu.
  unfold module_globals.
  destruct (String.eqb_spec (run_number environ) "0") as [E|_]; [contradiction|].
  rewrite (get_cyclic_index_of_int lim (PyStr (run_number environ)) n MAX_REPO);
    [|exact Hn|discriminate].
  cbn [bind]. eexists. exists ((n - 1) mod 30 + 1).
  split; [reflexivity|]. split; [reflexivity|].
  split; [apply cyclic_index_bounds|].
  repeat apply conj; try reflexivity. exact Hu.
Qed.

Lemma import_with_run_number_witness :
  exists g i,
    module_globals 4300 [("GITHUB_RUN_NUMBER", "45")] = Returned g /\
    i = (45 - 1) mod 30 + 1 /\ 1 <= i <= 30 /\
    lookup g "run_index" = Returned (PyInt i) /\
    lookup g "repo_number" = Returned (PyStr (format_03d i)) /\
    lookup g "BASE_URL" = Returned (PyStr (rotating_url (format_03d i))) /\
    BASE_URL 4300 "45" = Returned (rotating_url (format_03d i)) /\
    scope_bound g.
Proof.
  apply (import_with_run_number 4300 [("GITHUB_RUN_NUMBER", "45")] 45);
    [discriminate|reflexivity].
Defined.

(** ** More on the builders *)

Lemma append_inv_head : forall a b c : string, a ++ b = a ++ c -> b = c.
Proof.
  induction a as [|x a IH]; intros b c H; cbn in H; [exact H|].
  injection H as H. exact (IH _ _ H).
Qed.

Lemma append_inj_length :
  forall a b x y : string,
    String.length a = String.length b -> a ++ x = b ++ y -> a = b.
Proof.
  induction a as [|c a IH]; intros [|d b] x y Hlen H; cbn in *;
    try discriminate Hlen; [reflexivity|].
  injection Hlen as Hlen. injection H as -> H. f_equal. exact (IH _ _ _ Hlen H).
Qed.

Lemma length_interleave :
  forall lits vals,
    (List.length vals <= List.length lits)%nat ->
    String.length (interleave lits vals)
    = (total_length lits + total_length vals)%nat.
Proof.
  induction lits as [|l ls IH]; intros [|v vs] H; cbn [List.length] in H;
    cbn [interleave total_length].
  - reflexivity.
  - lia.
  - rewrite length_append, (IH []) by (cbn; lia). cbn [total_length]. lia.
  - rewrite !length_append, (IH vs) by lia. lia.
Qed.

Lemma interleave_inj_head :
  forall lits t1 t2 vs1 vs2,
    lits <> [] ->
    interleave lits (t1 :: vs1) = interleave lits (t2 :: vs2) ->
    String.length t1 = String.length t2 ->
    t1 = t2.
Proof.
  intros [|l ls] t1 t2 vs1 vs2 Hne H Hlen; [contradiction|].
  cbn [interleave] in H. apply append_inv_head in H.
  exact (append_inj_length _ _ _ _ Hlen H).
Qed.

Lemma lookup_raises_only_NameError :
  forall ns name e, lookup ns name = Raised e -> e = NameError.
Proof.
  induction ns as [|[k v] rest IH]; intros name e H; cbn in H.
  - congruence.
  - destruct (String.eqb k name); [discriminate H|exact (IH _ _ H)].
Qed.

(** Rendering raises [NameError] as soon as one field is not bound. *)
Lemma render_unbound :
  forall ns f name e,
    In name (fields f) -> lookup ns name = Raised e ->
    render ns f = Raised NameError.
Proof.
  intros ns f name e. induction f as [|[s|n] rest IH]; intros Hin He.
  - destruct Hin.
  - cbn [render]. rewrite (IH Hin He). reflexivity.
  - cbn [render]. destruct (lookup ns n) as [v|e'] eqn:En.
    + cbn [bind]. destruct Hin as [->|Hin]; [congruence|].
      rewrite (IH Hin He). reflexivity.
    + cbn [bind]. now rewrite (lookup_raises_only_NameError _ _ _ En).
Qed.

Lemma question_generator_segments :
  List.length (literals question_generator_prompt) = 7%nat.
Proof. reflexivity. Qed.

Lemma validation_format_segments :
  List.length (literals validation_format_prompt) = 3%nat.
Proof. reflexivity. Qed.

Lemma audit_format_segments :
  List.length (literals audit_format_prompt) = 3%nat.
Proof. reflexivity. Qed.

Lemma scan_format_segments :
  List.length (literals scan_format_prompt) = 2%nat.
Proof. reflexivity. Qed.



(** X13: each builder sends different arguments to different prompts, so
    the argument can be told from the prompt. *)
Theorem builders_injective :
  forall (g : namespace) (v : py_value) (t1 t2 : string),
    lookup g "scope_files" = Returned v ->
    t1 <> t2 ->
    fst (question_generator g t1) <> fst (question_generator g t2) /\
    fst (validation_format g t1) <> fst (validation_format g t2) /\
    fst (audit_format g t1) <> fst (audit_format g t2) /\
    fst (scan_format g t1) <> fst (scan_format g t2).
Proof.
  intros g v t1 t2 Hv Hne. split; [|split; [|split]]; intros E; apply Hne.
  - rewrite !question_generator_returns in E. cbn [fst] in E.
    apply Returned_inj in E.
    apply (interleave_inj_head _ _ _ _ _ (literals_nonempty _) E).
    apply (f_equal String.length) in E.
    rewrite !length_interleave in E
      by (rewrite question_generator_segments; cbn; lia).
    cbn [total_length] in E. lia.
  - rewrite !(validation_format_returns g _ v Hv) in E. cbn [fst] in E.
    apply Returned_inj in E.
    apply (interleave_inj_head _ _ _ _ _ (literals_nonempty _) E).
    apply (f_equal String.length) in E.
    rewrite !length_interleave in E
      by (rewrite validation_format_segments; cbn; lia).
    cbn [total_length] in E. lia.
  - rewrite !audit_format_returns in E. cbn [fst] in E.
    apply Returned_inj in E.
    apply (interleave_inj_head _ _ _ _ _ (literals_nonempty _) E).
    apply (f_equal String.length) in E.
    rewrite !length_interleave in E
      by (rewrite audit_format_segments; cbn; lia).
    cbn [total_length] in E. lia.
  - rewrite !scan_format_returns in E. cbn [fst] in E.
    apply Returned_inj in E.
    apply (interleave_inj_head _ _ _ _ _ (literals_nonempty _) E).
    apply (f_equal String.length) in E.
    rewrite !length_interleave in E
      by (rewrite scan_format_segments; cbn; lia).
    cbn [total_length] in E. lia.
Qed.

Lemma builders_injective_witness :
  fst (question_generator default_globals "contract/A.cs")
  <> fst (question_generator default_globals "contract/B.cs") /\
  fst (validation_format default_globals "contract/A.cs")
  <> fst (validation_format default_globals "contract/B.cs") /\
  fst (audit_format default_globals "contract/A.cs")
  <> fst (audit_format default_globals "contract/B.cs") /\
  fst (scan_format default_globals "contract/A.cs")
  <> fst (scan_format default_globals "contract/B.cs").
Proof.
  apply (builders_injective default_globals (PyStrList scope_files)
           "contract/A.cs" "contract/B.cs").
  - reflexivity.
  - discriminate.
Defined.

(** X14: [validation_format] raises [NameError] when the global
    [scope_files] is not bound, and depends on the globals through that
    name alone; the other three builders return the same prompt whatever
    the globals are, also when a global has the name of the parameter. *)
Theorem builders_and_globals :
  forall (g g' : namespace) (t : string),
    ((forall v, lookup g "scope_files" <> Returned v) ->
     validation_format g t = (Raised NameError, g)) /\
    (lookup g "scope_files" = lookup g' "scope_files" ->
     fst (validation_format g t) = fst (validation_format g' t)) /\
    fst (audit_format g t) = fst (audit_format g' t) /\
    fst (scan_format g t) = fst (scan_format g' t) /\
    fst (audit_format (("security_question", PyStr "shadowed") :: g) t)
    = fst (audit_format [] t) /\
    fst (scan_format (("report", PyStr "shadowed") :: g) t)
    = fst (scan_format [] t).
Proof.
  intros g g' t.
  assert (Hunbound : forall h e, lookup h "scope_files" = Raised e ->
                                 validation_format h t = (Raised NameError, h)).
  { intros h e He. unfold validation_format. cbv zeta. f_equal.
    apply (render_unbound _ _ "scope_files" e).
    - right. left. reflexivity.
    - exact He. }
  split; [|split].
  - intros Hno. destruct (lookup g "scope_files") as [v|e] eqn:E.
    + exfalso. exact (Hno v eq_refl).
    + exact (Hunbound g e E).
  - intros Heq. destruct (lookup g "scope_files") as [v|e] eqn:E.
    + rewrite (validation_format_returns g t v E).
      rewrite (validation_format_returns g' t v (eq_sym Heq)). reflexivity.
    + rewrite (Hunbound g e E), (Hunbound g' e (eq_sym Heq)). reflexivity.
  - rewrite !audit_format_returns, !scan_format_returns. repeat apply conj; reflexivity.
Qed.

Lemma all_copied_no_quote :
  forall q s, all_chars (copied_by_repr q) s = true -> has_char q s = false.
Proof.
  unfold all_chars, has_char. intros q. induction s as [|c s IH]; cbn; [reflexivity|].
  intros H. apply andb_true_iff in H as [Hc Hs]. rewrite (IH Hs).
  unfold copied_by_repr in Hc.
  apply andb_true_iff in Hc as [Hc _]. apply andb_true_iff in Hc as [Hc _].
  apply andb_true_iff in Hc as [_ Hc]. apply negb_true_iff in Hc.
  rewrite Ascii.eqb_sym, Hc. reflexivity.
Qed.

Lemma repr_char_copied :
  forall q c, copied_by_repr q c = true -> repr_char q c = str1 c.
Proof.
  intros q c H. unfold copied_by_repr in H.
  apply andb_true_iff in H as [H Hlt]. apply andb_true_iff in H as [H Hge].
  apply andb_true_iff in H as [Hb Hq].
  apply negb_true_iff in Hb. apply negb_true_iff in Hq.
  apply Nat.leb_le in Hge. apply Nat.ltb_lt in Hlt.
  unfold repr_char. rewrite Hb, Hq.
  destruct (Nat.eqb_spec (nat_of_ascii c) 9); [lia|].
  destruct (Nat.eqb_spec (nat_of_ascii c) 10); [lia|].
  destruct (Nat.eqb_spec (nat_of_ascii c) 13); [lia|].
  destruct (Nat.ltb_spec (nat_of_ascii c) 32); [lia|].
  destruct (Nat.eqb_spec (nat_of_ascii c) 127); [lia|].
  reflexivity.
Qed.

Lemma repr_body_copied :
  forall q s, all_chars (copied_by_repr q) s = true -> repr_body q s = s.
Proof.
  unfold all_chars. intros q. induction s as [|c s IH]; cbn; [reflexivity|].
  intros H. apply andb_true_iff in H as [Hc Hs].
  rewrite (repr_char_copied q c Hc), (IH Hs). reflexivity.
Qed.

Lemma repr_str_plain :
  forall s, all_chars (copied_by_repr squote) s = true -> repr_str s = single_quoted s.
Proof.
  intros s H. unfold repr_str.
  rewrite (all_copied_no_quote squote s H). cbn [andb].
  rewrite (repr_body_copied squote s H). reflexivity.
Qed.

Lemma scope_files_all_plain :
  forallb (all_chars (copied_by_repr squote)) scope_files = true.
Proof. vm_compute. reflexivity. Qed.

(** X15: [validation_format] shows the list that [scope_files] is bound
    to when it is called: for paths of printable ASCII without single
    quote and backslash, as those of the module are, each path in single
    quotes, in order, after [scope_files = ]; an empty list as [[]]. *)
Theorem validation_format_renders_bound_list :
  forall (g : namespace) (report : string) (l : list string),
    lookup g "scope_files" = Returned (PyStrList l) ->
    forallb (all_chars (copied_by_repr squote)) l = true ->
    validation_format g report =
      (Returned (segment 0 validation_format_prompt ++ report
                 ++ segment 1 validation_format_prompt
                 ++ ("[" ++ join ", " (map single_quoted l) ++ "]")
                 ++ segment 2 validation_format_prompt), g) /\
    (l = [] -> "[" ++ join ", " (map single_quoted l) ++ "]" = "[]") /\
    contains (segment 1 validation_format_prompt) "scope_files = " = true /\
    forallb (all_chars (copied_by_repr squote)) scope_files = true.
Proof.
  intros g report l Hl Hplain. split; [|split; [|split]].
  - rewrite (validation_format_returns g report _ Hl).
    rewrite (three_segments validation_format_prompt) by reflexivity.
    cbn [interleave str]. rewrite append_nil_r. unfold repr_list.
    assert (Hmap : map repr_str l = map single_quoted l).
    { apply map_ext_in. intros p Hp.
      rewrite forallb_forall in Hplain. exact (repr_str_plain p (Hplain p Hp)). }
    rewrite Hmap. reflexivity.
  - intros ->. reflexivity.
  - vm_compute. reflexivity.
  - exact scope_files_all_plain.
Qed.

Lemma validation_format_renders_bound_list_witness :
  validation_format [("scope_files", PyStrList ["a/B.cs"; "c/D.cs"])] "text" =
    (Returned (segment 0 validation_format_prompt ++ "text"
               ++ segment 1 validation_format_prompt
               ++ ("[" ++ join ", " (map single_quoted ["a/B.cs"; "c/D.cs"]) ++ "]")
               ++ segment 2 validation_format_prompt),
     [("scope_files", PyStrList ["a/B.cs"; "c/D.cs"])]).
Proof.
  apply (validation_format_renders_bound_list
           [("scope_files", PyStrList ["a/B.cs"; "c/D.cs"])] "text"
           ["a/B.cs"; "c/D.cs"]); reflexivity.
Defined.
